(** * SBR automation: row loading, resume, retry and the autofill loop

    A shallow embedding of the Python sources under [sbr_automation/]
    (utils.py, excel_loader.py, loader.py, resume.py, logbook.py,
    submitter.py, table_actions.py, autofill.py).

    Conventions of the embedding.
    - Python [str] is [string]; the text is taken to be ASCII, so
      [str.isdigit], [\d], [\s], [str.upper] and [str.lower] are the
      ASCII ones.
    - Python [int] is [Z].
    - [dict] is stdpp's [gmap].
    - Console output ([print]) is not modelled. *)

From Stdlib Require Import ZArith Ascii String DecimalString.
From Stdlib Require Import DecimalZ DecimalN DecimalPos.
From stdpp Require Import gmap strings list.

Local Open Scope string_scope.
Local Open Scope Z_scope.
Local Open Scope list_scope.

(** ** Python values and string primitives *)

Module Py.

(** The objects that reach the normalisers: [None], a float NaN (an empty
    spreadsheet cell), a [str], or any other object, given by the text
    [str(value)] yields and by its truth value. *)
Inductive pyobj : Type :=
| PyNone
| PyNaN
| PyStr (s : string)
| PyOther (text : string) (truth : bool).

(** [str(value)] *)
Definition py_str (v : pyobj) : string :=
  match v with
  | PyNone => "None"
  | PyNaN => "nan"
  | PyStr s => s
  | PyOther t _ => t
  end.

(** [bool(value)]: NaN is a non-zero float, hence true. *)
Definition truthy (v : pyobj) : bool :=
  match v with
  | PyNone => false
  | PyNaN => true
  | PyStr s => negb (String.eqb s "")
  | PyOther _ b => b
  end.

(** [a or b] *)
Definition py_or (a b : pyobj) : pyobj := if truthy a then a else b.

Definition code (c : ascii) : N := N_of_ascii c.

(** [\d] / one character of [str.isdigit] *)
Definition is_digit (c : ascii) : bool :=
  (48 <=? code c)%N && (code c <=? 57)%N.

(** [\s] / [str.isspace] on ASCII: TAB, LF, VT, FF, CR, FS, GS, RS, US, SPACE *)
Definition is_space (c : ascii) : bool :=
  ((9 <=? code c)%N && (code c <=? 13)%N)
  || ((28 <=? code c)%N && (code c <=? 32)%N).

Definition lower_char (c : ascii) : ascii :=
  if (65 <=? code c)%N && (code c <=? 90)%N then ascii_of_N (code c + 32) else c.

Definition upper_char (c : ascii) : ascii :=
  if (97 <=? code c)%N && (code c <=? 122)%N then ascii_of_N (code c - 32) else c.

Fixpoint str_map (f : ascii -> ascii) (s : string) : string :=
  match s with
  | EmptyString => EmptyString
  | String c r => String (f c) (str_map f r)
  end.

Fixpoint str_filter (p : ascii -> bool) (s : string) : string :=
  match s with
  | EmptyString => EmptyString
  | String c r => if p c then String c (str_filter p r) else str_filter p r
  end.

Fixpoint str_forall (p : ascii -> bool) (s : string) : bool :=
  match s with
  | EmptyString => true
  | String c r => p c && str_forall p r
  end.

(** [s.lower()], [s.upper()] *)
Definition lower (s : string) : string := str_map lower_char s.
Definition upper (s : string) : string := str_map upper_char s.

(** [s.isdigit()]: non-empty and every character a digit *)
Definition isdigit (s : string) : bool :=
  match s with
  | EmptyString => false
  | _ => str_forall is_digit s
  end.

(** [s.lstrip()], [s.rstrip()], [s.strip()] *)
Fixpoint lstrip (s : string) : string :=
  match s with
  | EmptyString => EmptyString
  | String c r => if is_space c then lstrip r else s
  end.

Fixpoint rstrip (s : string) : string :=
  match s with
  | EmptyString => EmptyString
  | String c r =>
      match rstrip r with
      | EmptyString => if is_space c then EmptyString else String c EmptyString
      | r' => String c r'
      end
  end.

Definition strip (s : string) : string := rstrip (lstrip s).

(** [re.sub(r"\s+", " ", s)]: [in_run] tells whether the previous
    character belonged to the run of whitespace being replaced. *)
Fixpoint re_sub_ws_from (in_run : bool) (s : string) : string :=
  match s with
  | EmptyString => EmptyString
  | String c r =>
      if is_space c
      then (if in_run then re_sub_ws_from true r
            else String " " (re_sub_ws_from true r))
      else String c (re_sub_ws_from false r)
  end.

Definition re_sub_ws (s : string) : string := re_sub_ws_from false s.

(** [s.replace(a, b)] for single characters *)
Definition replace_char (a b : ascii) (s : string) : string :=
  str_map (fun c => if Ascii.eqb c a then b else c) s.

(** [sep.join(parts)] *)
Fixpoint join (sep : string) (parts : list string) : string :=
  match parts with
  | [] => ""
  | [p] => p
  | p :: rest => p +:+ sep +:+ join sep rest
  end.

(** [str(n)] for an [int] *)
Definition str_of_int (n : Z) : string := NilZero.string_of_int (Z.to_int n).

(** [int(s)] on a string of digits; [None] stands for [ValueError].  The
    sources call it only after [isdigit].  Integers are unbounded: the
    interpreter's limit on the number of digits converted is left out. *)
Definition int_of_str (s : string) : option Z :=
  option_map Z.of_uint (NilZero.uint_of_string s).

End Py.

Import Py.

(** ** utils.py *)

Module Utils.

(** An exception object: its class name and [str(exc)]. *)
Record exn : Type := Exn { exc_class : string; exc_text : string }.

(** [norm_space] *)
Definition norm_space (value : pyobj) : string :=
  match value with
  | PyNone => ""
  | PyNaN => ""
  | PyStr s => strip (re_sub_ws s)
  | PyOther _ _ => strip (re_sub_ws (py_str value))
  end.

(** [nonempty] *)
Definition nonempty (value : pyobj) : bool :=
  negb (String.eqb (norm_space value) "").

(** [norm_phone]: [re.findall(r"\d", ...)] joined with the empty string *)
Definition norm_phone (value : pyobj) : string :=
  str_filter is_digit (norm_space value).

(** The longest prefix of digits of [s], and what follows it. *)
Fixpoint span_digits (s : string) : string * string :=
  match s with
  | EmptyString => (EmptyString, EmptyString)
  | String c r =>
      if is_digit c
      then let '(ds, rest) := span_digits r in (String c ds, rest)
      else (EmptyString, s)
  end.

(** A match of [-?\d+(?:\.\d+)?] anchored at the start of [s]. *)
Definition match_float_at (s : string) : option string :=
  let '(sign, body) :=
    match s with
    | String "-"%char r => ("-", r)
    | _ => ("", s)
    end in
  let '(ds, rest) := span_digits body in
  if String.eqb ds "" then None
  else
    match rest with
    | String "."%char r2 =>
        let '(fs, _) := span_digits r2 in
        if String.eqb fs "" then Some (sign +:+ ds)
        else Some (sign +:+ ds +:+ "." +:+ fs)
    | _ => Some (sign +:+ ds)
    end.

(** [re.search(r"-?\d+(?:\.\d+)?", s)]: the leftmost match *)
Fixpoint re_search_float (s : string) : option string :=
  match match_float_at s with
  | Some m => Some m
  | None =>
      match s with
      | EmptyString => None
      | String _ r => re_search_float r
      end
  end.

(** [norm_float] *)
Definition norm_float (value : pyobj) : string :=
  let text := replace_char ","%char "."%char (norm_space value) in
  default "" (re_search_float text).

(** [ScreenshotResult]: [path] is [None] when the capture failed. *)
Record ScreenshotResult : Type :=
  { shot_path : option string; shot_reason : option string }.

(** [describe_exception] *)
Definition describe_exception (exc : exn) : string :=
  exc_class exc +:+ ": " +:+ exc_text exc.

(** [note_with_reason]: [shot.path or not shot.reason] *)
Definition note_with_reason (note : string) (shot : ScreenshotResult) : string :=
  match shot_path shot, shot_reason shot with
  | Some _, _ => note
  | None, None => note
  | None, Some r =>
      if String.eqb r "" then note
      else note +:+ " (screenshot-error: " +:+ r +:+ ")"
  end.

(** [shot.path or ""] *)
Definition shot_path_or_empty (shot : ScreenshotResult) : string :=
  default "" (shot_path shot).

(** *** [with_retry]

    The coroutine [fn] is a step on a state of the outside world: each call
    either returns a value or raises an [Exception].  The trace records the
    calls of [fn] and the sleeps; [Slept k] is the sleep whose duration is
    [delay_ms / 1000] multiplied [k] times by [backoff]. *)

Inductive outcome (V : Type) : Type :=
| Returned (v : V)
| Raised (e : exn).
Arguments Returned {V} v.
Arguments Raised {V} e.

Inductive retry_event : Type :=
| Called
| Slept (k : nat).

#[global] Instance retry_event_eq_dec : EqDecision retry_event.
Proof. solve_decision. Defined.

(** What [await with_retry(...)] does: return [fn]'s value, return [None]
    (falling off the end of the function), or raise. *)
Inductive retry_result (V : Type) : Type :=
| RetValue (v : V)
| RetNone
| RetRaise (e : exn).
Arguments RetValue {V} v.
Arguments RetNone {V}.
Arguments RetRaise {V} e.

Section WithRetry.
Context {St V : Type}.
Variable fn : St -> outcome V * St.
Variable attempts : Z.

(** The statements after the loop: [if last_exc: raise last_exc].  An
    exception object is true, so the test is on [last_exc] being set. *)
Definition after_loop (last_exc : option exn) : retry_result V :=
  match last_exc with
  | Some e => RetRaise e
  | None => RetNone
  end.

(** The [for i in range(attempts)] loop, with [fuel] iterations left. *)
Fixpoint retry_loop (fuel : nat) (i : Z) (k : nat) (last_exc : option exn)
    (st : St) (tr : list retry_event) : retry_result V * St * list retry_event :=
  match fuel with
  | O => (after_loop last_exc, st, tr)
  | S fuel' =>
      match fn st with
      | (Returned v, st') => (RetValue v, st', tr ++ [Called])
      | (Raised e, st') =>
          if i =? attempts - 1
          then (after_loop (Some e), st', tr ++ [Called])
          else retry_loop fuel' (i + 1) (S k) (Some e) st' (tr ++ [Called; Slept k])
      end
  end.

Definition with_retry (st : St) : retry_result V * St * list retry_event :=
  retry_loop (Z.to_nat attempts) 0 0%nat None st [].

(** The world after [n] calls of [fn], and the outcome of the call made
    after [n] earlier ones. *)
Fixpoint after_calls (n : nat) (st : St) : St :=
  match n with
  | O => st
  | S n' => after_calls n' (snd (fn st))
  end.

Definition nth_call (n : nat) (st : St) : outcome V :=
  fst (fn (after_calls n st)).

End WithRetry.

End Utils.

Import Utils.
(** ** models.py *)

Module Models.

Record RowContext : Type := {
  table_index : Z;
  display_index : Z;
  idsbr : string;
  nama : string;
  status : string;
  phone : string;
  whatsapp : string;
  email : string;
  website : string;
  latitude : string;
  longitude : string;
  sumber : string;
  catatan : string;
  profiling_payload : gmap string string
}.

Record SubmitResult : Type := { sr_code : string; sr_detail : string }.

End Models.

Import Models.

(** ** excel_loader.py *)

Module ExcelLoader.

(** One spreadsheet row (a pandas [Series]): the cell under each column. *)
Abbreviation df_row := (gmap string pyobj).

(** The dataframe [load_dataframe] returns: the cleaned column names and
    the rows in sheet order. *)
Record DataFrame : Type := { df_columns : list string; df_rows : list df_row }.

(** [len(df)] *)
Definition df_len (df : DataFrame) : Z := Z.of_nat (length (df_rows df)).

(** [df_row.get(key)] *)
Definition row_get (row : df_row) (key : string) : pyobj :=
  default PyNone (row !! key).

(** [df.iloc[i]]; [None] stands for [IndexError]. *)
Definition iloc (df : DataFrame) (i : Z) : option df_row :=
  let n := df_len df in
  if (0 <=? i) && (i <? n) then df_rows df !! Z.to_nat i
  else if (- n <=? i) && (i <? 0) then df_rows df !! Z.to_nat (n + i)
  else None.

(** [name in df.columns] *)
Definition in_columns (df : DataFrame) (name : string) : bool :=
  bool_decide (name ∈ df_columns df).

Definition REQUIRED_COLUMNS_AUTOFILL : list string :=
  ["status"; "email"; "sumber"; "catatan"].

Definition REQUIRED_COLUMN_ALIASES : list (string * list string) :=
  [ ("status", ["status"; "keberadaan_usaha"]);
    ("email", ["email"]);
    ("sumber", ["sumber"; "sumber_profiling"]);
    ("catatan", ["catatan"; "catatan_profiling"]) ].

Definition COLUMN_ALIASES : gmap string (list string) :=
  list_to_map
    (REQUIRED_COLUMN_ALIASES ++
     [ ("idsbr", ["idsbr"; "idsbr_master"]);
       ("nama", ["nama"; "nama_usaha"; "nama_usaha_pembetulan"; "nama_komersial_usaha"]) ]).

Definition PROFILE_FIELD_KEYS : list string :=
  [ "nama_usaha_pembetulan"; "nama_komersial_usaha"; "alamat_pembetulan";
    "nama_sls"; "kodepos"; "nomor_telepon"; "nomor_whatsapp"; "website";
    "keberadaan_usaha"; "idsbr_master"; "kdprov_pindah"; "kdkab_pindah";
    "kdprov"; "kdkab"; "kdkec"; "kddesa"; "jenis_kepemilikan_usaha";
    "bentuk_badan_hukum_usaha"; "sumber_profiling"; "catatan_profiling" ].

Definition missing_columns_error (missing : list string) : exn :=
  Exn "RuntimeError" ("Kolom wajib belum ada di Excel: " +:+ join ", " missing).

(** [ensure_required_columns]; [Some e] is the exception raised. *)
Definition ensure_required_columns (df : DataFrame) (required : list string) : option exn :=
  match filter (fun col => in_columns df col = false) required with
  | [] => None
  | missing => Some (missing_columns_error missing)
  end.

(** [ensure_profile_fields] *)
Definition ensure_profile_fields (df : DataFrame) : option exn :=
  ensure_required_columns df PROFILE_FIELD_KEYS.

(** [extract_profile_payload] *)
Definition extract_profile_payload (row : df_row) : gmap string string :=
  list_to_map (map (fun key => (key, norm_space (row_get row key))) PROFILE_FIELD_KEYS).

(** [slice_rows] *)
Definition slice_rows (df : DataFrame) (start end_ : option Z) : Z * Z :=
  let start_idx := match start with None => 0 | Some s => Z.max (s - 1) 0 end in
  let end_idx := match end_ with None => df_len df | Some e => Z.min e (df_len df) end in
  (start_idx, end_idx).

(** [has_column] *)
Definition has_column (df : DataFrame) (name : string)
    (aliases : option (gmap string (list string))) : bool :=
  if in_columns df name then true
  else
    match aliases with
    | Some al =>
        if bool_decide (al = ∅) then false
        else existsb (in_columns df) (default [] (al !! name))
    | None => false
    end.

(** [ensure_required_with_aliases] *)
Definition ensure_required_with_aliases (df : DataFrame) (required : list string)
    (aliases : gmap string (list string)) : option exn :=
  match filter (fun base => has_column df base (Some aliases) = false) required with
  | [] => None
  | missing => Some (missing_columns_error missing)
  end.

End ExcelLoader.

Import ExcelLoader.

(** ** config.py: the options of a run *)

Module Config.

(** [AutofillOptions], without the spreadsheet selection: the dataframe is
    an input of the model. [match_by] is the string the command line or the
    profile file gives. *)
Record AutofillOptions : Type := {
  match_by : string;
  start_row : option Z;
  end_row : option Z;
  stop_on_error : bool;
  resume : bool;
  dry_run : bool
}.

End Config.

Import Config.

(** ** loader.py *)

Module Loader.

Definition PHONE_COLUMN_CANDIDATES : list string :=
  [ "nomor_telepon"; "Nomor Telepon"; "No Telepon"; "No. Telepon";
    "Telepon"; "Telepon/HP"; "Phone" ].

Definition WHATSAPP_COLUMN_CANDIDATES : list string :=
  [ "nomor_whatsapp"; "whatsapp"; "no_whatsapp"; "no whatsapp" ].

Definition STATUS_NORMALIZATION : gmap string string :=
  list_to_map
    [ ("aktif nonrespons", "Aktif Nonrespon");
      ("belum berproduksi", "Belum Beroperasi/Berproduksi") ].

Definition STATUS_NUMERIC_ITEMS : list (string * string) :=
  [ ("1", "Aktif");
    ("2", "Tutup Sementara");
    ("3", "Belum Beroperasi/Berproduksi");
    ("4", "Tutup");
    ("5", "Alih Usaha");
    ("6", "Tidak Ditemukan");
    ("7", "Aktif Pindah");
    ("8", "Aktif Nonrespon");
    ("9", "Duplikat");
    ("10", "Salah Kode Wilayah");
    ("11", "Salah Kode Wilayah") ].

Definition STATUS_NUMERIC_MAP : gmap string string :=
  list_to_map STATUS_NUMERIC_ITEMS.

Definition MATCH_BY_REQUIRED_COLUMNS : gmap string (list string) :=
  list_to_map
    [ ("idsbr", ["idsbr"; "idsbr_master"]);
      ("name", ["nama"; "nama_usaha"; "nama_usaha_pembetulan"]) ].

(** The two loops shared by [_select_phone_value] and
    [_select_whatsapp_value]: the first candidate column of the row with a
    non-blank cell, else the first candidate column of the row. *)
Definition first_filled (row : df_row) (candidates : list string) : option pyobj :=
  head (omap (fun column =>
                match row !! column with
                | Some value =>
                    if String.eqb (norm_space value) "" then None else Some value
                | None => None
                end) candidates).

Definition first_present (row : df_row) (candidates : list string) : option pyobj :=
  head (omap (fun column => row !! column) candidates).

(** [_select_phone_value] *)
Definition _select_phone_value (row : df_row) : pyobj :=
  match first_filled row PHONE_COLUMN_CANDIDATES with
  | Some value => value
  | None =>
      match first_present row PHONE_COLUMN_CANDIDATES with
      | Some value => value
      | None => row_get row "Nomor Telepon"
      end
  end.

(** [_select_whatsapp_value] *)
Definition _select_whatsapp_value (row : df_row) : pyobj :=
  match first_filled row WHATSAPP_COLUMN_CANDIDATES with
  | Some value => value
  | None =>
      match first_present row WHATSAPP_COLUMN_CANDIDATES with
      | Some value => value
      | None => py_or (row_get row "nomor_whatsapp") (row_get row "whatsapp")
      end
  end.

(** [_normalize_status] *)
Definition _normalize_status (status : string) : string :=
  if String.eqb status "" then ""
  else
    let fallthrough := default status (STATUS_NORMALIZATION !! lower status) in
    if isdigit status then
      match STATUS_NUMERIC_MAP !! strip status with
      | Some mapped => if String.eqb mapped "" then fallthrough else mapped
      | None => fallthrough
      end
    else fallthrough.

(** [_context_from_row] *)
Definition _context_from_row (row : df_row) (table_index display_index : Z) : RowContext :=
  let get := row_get row in
  {| table_index := table_index;
     display_index := display_index;
     idsbr := norm_space (py_or (py_or (get "idsbr") (get "idsbr_master")) (get "IDSBR"));
     nama := norm_space
               (py_or (py_or (py_or (get "nama") (get "nama_usaha"))
                             (get "nama_usaha_pembetulan"))
                      (get "nama_komersial_usaha"));
     status := _normalize_status
                 (norm_space (py_or (get "status") (get "keberadaan_usaha")));
     phone := norm_phone (_select_phone_value row);
     whatsapp := norm_phone (_select_whatsapp_value row);
     email := norm_space (get "email");
     website := norm_space (get "website");
     latitude := norm_float (get "latitude");
     longitude := norm_float (get "longitude");
     sumber := norm_space (py_or (get "sumber_profiling") (get "sumber"));
     catatan := norm_space (py_or (get "catatan_profiling") (get "catatan"));
     profiling_payload := extract_profile_payload row |}.

(** [_validate_columns] *)
Definition _validate_columns (options : AutofillOptions) (df : DataFrame) : option exn :=
  let required_columns :=
    REQUIRED_COLUMNS_AUTOFILL
    ++ default [] (MATCH_BY_REQUIRED_COLUMNS !! match_by options) in
  match ensure_required_with_aliases df required_columns COLUMN_ALIASES with
  | Some e => Some e
  | None => ensure_profile_fields df
  end.

(** The loop of [load_rows] over [range(start_idx, end_idx)]; [None] is
    the [IndexError] of [df.iloc]. *)
Fixpoint build_contexts (df : DataFrame) (indices : list Z) : option (list RowContext) :=
  match indices with
  | [] => Some []
  | i :: rest =>
      match iloc df i with
      | None => None
      | Some row =>
          option_map (cons (_context_from_row row i (i + 1))) (build_contexts df rest)
      end
  end.

(** [range(a, b)] *)
Definition py_range (a b : Z) : list Z := seqZ a (b - a).

(** [load_rows], from the dataframe on: either the exception raised or
    [(contexts, start_display, end_display)]. *)
Definition load_rows (options : AutofillOptions) (df : DataFrame)
    : exn + (list RowContext * Z * Z) :=
  match _validate_columns options df with
  | Some exc =>
      let cols := default [] (MATCH_BY_REQUIRED_COLUMNS !! match_by options) in
      let missing_match :=
        filter (fun col =>
                  negb (existsb (in_columns df) (default [col] (COLUMN_ALIASES !! col))) = true)
               cols in
      match missing_match with
      | [] => inl exc
      | _ =>
          inl (Exn "RuntimeError"
                 ("Kolom Excel untuk '--match-by " +:+ match_by options
                  +:+ "' wajib ada: " +:+ join ", " missing_match +:+ "."))
      end
  | None =>
      let '(start_idx, end_idx) := slice_rows df (start_row options) (end_row options) in
      let start_display := start_idx + 1 in
      let end_display := if end_idx =? 0 then df_len df else end_idx in
      match build_contexts df (py_range start_idx end_idx) with
      | None => inl (Exn "IndexError" "single positional indexer is out-of-bounds")
      | Some contexts => inr (contexts, start_display, end_display)
      end
  end.

End Loader.

Import Loader.
(** ** logbook.py *)

Module Logbook.

(** [Level = Literal["OK", "WARN", "ERROR"]] *)
Inductive Level : Type := OK | WARN | ERROR.

Definition level_text (l : Level) : string :=
  match l with
  | OK => "OK"
  | WARN => "WARN"
  | ERROR => "ERROR"
  end.

#[global] Instance Level_eq_dec : EqDecision Level.
Proof. solve_decision. Defined.

Record LogEvent : Type := {
  ev_ts : string;
  ev_row_index : Z;
  ev_level : Level;
  ev_stage : string;
  ev_idsbr : string;
  ev_nama : string;
  ev_match_value : string;
  ev_note : string;
  ev_screenshot : string
}.

(** [LogBook]: the events in the order appended; whether an attention
    flag path is configured; whether the marker file has been touched. *)
Record LogBook : Type := {
  lb_events : list LogEvent;
  lb_has_flag : bool;
  lb_flag_raised : bool
}.

(** [LogBook.append] *)
Definition append (book : LogBook) (event : LogEvent) : LogBook :=
  {| lb_events := lb_events book ++ [event];
     lb_has_flag := lb_has_flag book;
     lb_flag_raised :=
       if decide (ev_level event = ERROR)
       then lb_flag_raised book || lb_has_flag book
       else lb_flag_raised book |}.

(** One line of a log CSV as [csv.DictReader] yields it: each header name
    mapped to the text of the field, or to [None] when the line is shorter
    than the header. *)
Abbreviation csv_row := (gmap string (option string)).

(** The line [LogBook.save] writes for an event ([asdict] then [to_csv]),
    read back. *)
Definition csv_row_of_event (e : LogEvent) : csv_row :=
  list_to_map
    [ ("ts", Some (ev_ts e));
      ("row_index", Some (str_of_int (ev_row_index e)));
      ("level", Some (level_text (ev_level e)));
      ("stage", Some (ev_stage e));
      ("idsbr", Some (ev_idsbr e));
      ("nama", Some (ev_nama e));
      ("match_value", Some (ev_match_value e));
      ("note", Some (ev_note e));
      ("screenshot", Some (ev_screenshot e)) ].

(** [LogBook.save]: the lines of the CSV written, [None] when the book is
    empty and no file is written. *)
Definition save (book : LogBook) : option (list csv_row) :=
  match lb_events book with
  | [] => None
  | events => Some (map csv_row_of_event events)
  end.

End Logbook.

Import Logbook.

(** ** resume.py *)

Module Resume.

Definition RESUME_ELIGIBLE_LEVELS : list string := ["OK"].

(** The prior log as [load_resume_entries] finds it. *)
Inductive prior_log : Type :=
| NoFile
| Unreadable (e : exn)
| CsvRows (rows : list csv_row).

(** [row.get(key, default)] on a line of the CSV *)
Definition csv_get (row : csv_row) (key : string) (default_ : option string) : option string :=
  default default_ (row !! key).

(** The dictionary comprehension
    [{int(row["row_index"]): row for row in reader if row.get("row_index", "").isdigit()}],
    a later line replacing an earlier one under the same key.  The left
    result is the exception that ends it. *)
Fixpoint read_entries (rows : list csv_row) (acc : gmap Z csv_row) : exn + gmap Z csv_row :=
  match rows with
  | [] => inr acc
  | row :: rest =>
      match csv_get row "row_index" (Some "") with
      | None => inl (Exn "AttributeError" "'NoneType' object has no attribute 'isdigit'")
      | Some text =>
          if isdigit text then
            match int_of_str text with
            | Some idx => read_entries rest (<[idx := row]> acc)
            | None => inl (Exn "ValueError" "invalid literal for int()")
            end
          else read_entries rest acc
      end
  end.

(** [(row.get("level") or "").upper()] *)
Definition row_level (row : csv_row) : string :=
  upper (default "" (csv_get row "level" None)).

Definition eligible_level (row : csv_row) : bool :=
  bool_decide (row_level row ∈ RESUME_ELIGIBLE_LEVELS).

(** [load_resume_entries] *)
Definition load_resume_entries (log : prior_log) (start_display end_display : Z)
    : gmap Z csv_row :=
  match log with
  | NoFile => ∅
  | Unreadable _ => ∅
  | CsvRows rows =>
      match read_entries rows ∅ with
      | inl _ => ∅
      | inr entries =>
          filter (fun p : Z * csv_row =>
                    ¬ (p.1 < start_display ∨ p.1 > end_display)
                    ∧ eligible_level p.2 = true)
                 entries
      end
  end.

End Resume.

Import Resume.
(** ** The browser as the orchestrator sees it

    The pages are outside the program.  A call into Playwright is modelled
    by the answer the page gives to it (a value the code tests, or the
    exception it raises) and by an entry in the list of actions performed
    on the browser, made when the call is made.  An exception is modelled
    wherever the code lets it reach a handler that changes what happens
    next, or leave the loop: so for the calls the loop makes for their
    effect on a page ([bring_to_front], [wait_for_timeout],
    [open_form_page]), which raise once the page is gone.  Where a call
    stands in a handler of its own that ignores the exception
    ([new_page.close()], the closing of extra tabs, the confirm button), it
    is modelled by its action alone. *)

Module Browser.

Inductive ui_action : Type :=
| ActSearch (text : string)      (* typing into the table filter *)
| ActClickEdit                   (* [ensure_click] on a row's edit control *)
| ActConfirmEdit                 (* the "Ya, edit" button *)
| ActOpenForm                    (* [open_form_page] *)
| ActCloseExtraTab
| ActFocusForm                   (* [new_page.bring_to_front()] *)
| ActCloseForm                   (* [new_page.close()] *)
| ActFocusList                   (* [page.bring_to_front()] *)
| ActFill                        (* [fill_form] *)
| ActSubmit                      (* [submit_form] *)
| ActScreenshot (label : string).

#[global] Instance ui_action_eq_dec : EqDecision ui_action.
Proof. solve_decision. Defined.

(** [locator.is_visible(...)]: true, false, or an exception. *)
Inductive probe : Type := Visible | Hidden | ProbeError.

(** What an opened form page shows to [is_finalized_form] and
    [is_locked_page]. *)
Record FormPage : Type := {
  cancel_submit : probe;         (* the Cancel Submit control *)
  submit_final_role : probe;     (* button with name Submit Final *)
  submit_final_text : probe;     (* text=Submit Final *)
  lock_text_edit : bool;         (* "tidak bisa melakukan edit" shows up *)
  lock_text_user : bool;         (* "sedang diedit oleh user lain" shows up *)
  back_to_home : bool            (* the Back to Home button shows up *)
}.

End Browser.

Import Browser.

(** ** submitter.py *)

Module Submitter.

(** [is_finalized_form] *)
Definition is_finalized_form (page : FormPage) : bool :=
  let visible_cancel :=
    match cancel_submit page with
    | Visible => true
    | Hidden => false
    | ProbeError => false
    end in
  if negb visible_cancel then false
  else
    let fix candidates (cs : list probe) : bool :=
      match cs with
      | [] => true
      | Visible :: _ => false
      | _ :: rest => candidates rest
      end in
    candidates [submit_final_role page; submit_final_text page].

(** [is_locked_page]: each [wait_for] either sees the element or raises. *)
Definition is_locked_page (page : FormPage) : bool :=
  let fix patterns (ps : list bool) : bool :=
    match ps with
    | [] => if back_to_home page then true else false
    | true :: _ => true
    | false :: rest => patterns rest
    end in
  patterns [lock_text_edit page; lock_text_user page].

End Submitter.

Import Submitter.

(** ** table_actions.py *)

Module TableActions.

(** What the directory table answers when a row is looked up by position. *)
Record IndexProbe : Type := {
  ip_rows : Z;                   (* [rows.count()] *)
  ip_edit_buttons : Z;           (* [btn.count()] *)
  ip_fallback_buttons : Z;       (* [fallback.count()] *)
  ip_click : bool                (* [ensure_click(..., attempts=1)] *)
}.

(** What it answers when filtered by one candidate text. *)
Record TextProbe : Type := {
  tp_used_filter : bool;         (* [_apply_table_search] *)
  tp_row_found : bool;
  tp_edit_buttons : Z;
  tp_fallback_buttons : Z;
  tp_click : bool
}.

(** [s.rstrip(c)] for one character *)
Fixpoint rstrip_char (c : ascii) (s : string) : string :=
  match s with
  | EmptyString => EmptyString
  | String a r =>
      match rstrip_char c r with
      | EmptyString => if Ascii.eqb a c then EmptyString else String a EmptyString
      | r' => String a r'
      end
  end.

(** [re.fullmatch(r"-?\d+(?:\.\d+)?", s)] *)
Definition fullmatch_float (s : string) : bool :=
  match match_float_at s with
  | Some m => String.eqb m s
  | None => false
  end.

(** Append unless already in the list. *)
Definition add_variant (variants : list string) (v : string) : list string :=
  if bool_decide (v ∈ variants) then variants else variants ++ [v].

(** "Preserve order while dropping duplicates" *)
Fixpoint dedupe (seen : list string) (variants : list string) : list string :=
  match variants with
  | [] => []
  | v :: rest =>
      if bool_decide (v ∈ seen) then dedupe seen rest
      else v :: dedupe (v :: seen) rest
  end.

Section TextVariants.

(** [float(text)] followed by [is_integer()] and [str(int(...))] are
    floating-point operations: [integer_form text] is the text they
    produce, [None] when the float is not integral. *)
Variable integer_form : string -> option string.

(** [_text_variants] *)
Definition _text_variants (raw_text : string) : list string :=
  let base := strip raw_text in
  if String.eqb base "" then []
  else
    let variants := [base] in
    let decimal_variant := replace_char ","%char "."%char base in
    let variants := add_variant variants decimal_variant in
    let variants :=
      if fullmatch_float decimal_variant then
        let stripped := rstrip_char "."%char (rstrip_char "0"%char decimal_variant) in
        let variants :=
          if String.eqb stripped "" then variants else add_variant variants stripped in
        match integer_form decimal_variant with
        | Some integer_text => add_variant variants integer_text
        | None => variants
        end
      else variants in
    dedupe [] variants.

End TextVariants.

(** The result of a click helper: the exception it lets through or the
    boolean it returns, with the actions it performed. *)
Definition click_result : Type := (exn + bool) * list ui_action.

(** [click_edit_by_index]; [table_wait] is the exception of
    [table.wait_for], if it raises. *)
Definition click_edit_by_index (table_wait : option exn) (p : IndexProbe)
    (index0 : Z) (perform_click : bool) : click_result :=
  match table_wait with
  | Some e => (inl e, [])
  | None =>
      if index0 >=? ip_rows p then (inr false, [])
      else if ip_edit_buttons p =? 0 then
        if ip_fallback_buttons p =? 0 then (inr false, [])
        else if negb perform_click then (inr true, [])
        else (inr (ip_click p), [ActClickEdit])
      else if negb perform_click then (inr true, [])
      else (inr (ip_click p), [ActClickEdit])
  end.

(** Clearing the filter after a candidate that had applied one. *)
Definition clear_filter (p : TextProbe) : list ui_action :=
  if tp_used_filter p then [ActSearch ""] else [].

(** The loop of [click_edit_by_text] over the candidates. *)
Fixpoint try_candidates (probe_of : string -> TextProbe) (perform_click : bool)
    (candidates : list string) : bool * list ui_action :=
  match candidates with
  | [] => (false, [])
  | candidate :: rest =>
      let p := probe_of candidate in
      let next acts :=
        let '(r, more) := try_candidates probe_of perform_click rest in
        (r, acts ++ more) in
      let with_button :=
        if perform_click then
          if tp_click p
          then (true, [ActSearch candidate; ActClickEdit] ++ clear_filter p)
          else next ([ActSearch candidate; ActClickEdit] ++ clear_filter p)
        else (true, [ActSearch candidate] ++ clear_filter p) in
      if negb (tp_row_found p) then next ([ActSearch candidate] ++ clear_filter p)
      else if 0 <? tp_edit_buttons p then with_button
      else if 0 <? tp_fallback_buttons p then with_button
      else next [ActSearch candidate]
  end.

(** [click_edit_by_text] *)
Definition click_edit_by_text (integer_form : string -> option string)
    (table_wait : option exn) (probe_of : string -> TextProbe)
    (text : string) (perform_click : bool) : click_result :=
  let text := strip text in
  if String.eqb text "" then (inr false, [])
  else
    match table_wait with
    | Some e => (inl e, [])
    | None =>
        let '(r, acts) :=
          try_candidates probe_of perform_click (_text_variants integer_form text) in
        (inr r, acts)
    end.

End TableActions.

Import TableActions.
(** ** autofill.py *)

Module Autofill.

(** [AutofillStats] *)
Record AutofillStats : Type := {
  success_count : Z;
  error_count : Z;
  skip_count : Z;
  stat_recent_errors : list string
}.

(** The value [open_form_page] returns: [(page, note, detail_error)]. *)
Record OpenResult : Type := {
  new_page : option FormPage;
  open_note : string;
  open_error : string
}.

(** [fill_form]: the summary dictionary, or an exception. *)
Inductive fill_outcome : Type :=
| FillSummary (updated skipped : Z) (errors : list string)
| FillRaises (e : exn).

(** [submit_form]: a [SubmitResult], or an exception. *)
Inductive submit_outcome : Type :=
| SubmitReturns (r : SubmitResult)
| SubmitRaises (e : exn).

(** What the browser answers while one row is processed.  The calls the
    loop makes on a page for their effect raise when the page is gone (so
    after [new_page.close()] whenever the form had opened in the tab of the
    list): [ui_focus_form] is the exception of [new_page.bring_to_front()],
    [ui_focus_list k] that of the call number [k] of
    [page.bring_to_front()] in the row, [ui_pause] that of
    [page.wait_for_timeout(800)], and the left case of [ui_open] that of
    [open_form_page], if they raise one.  [new_page.close()] stands in a
    handler of its own for [PlaywrightError], which is all it raises. *)
Record RowUI : Type := {
  ui_table_wait : option exn;
  ui_index : IndexProbe;
  ui_text : string -> TextProbe;
  ui_screenshot : string -> ScreenshotResult;   (* by label *)
  ui_confirm_edit : bool;                       (* [ya_edit.count() > 0] *)
  ui_open : exn + OpenResult;
  ui_extra_tabs : nat;                          (* tabs a double click left open *)
  ui_focus_form : option exn;
  ui_focus_list : nat -> option exn;
  ui_fill : fill_outcome;
  ui_submit : submit_outcome;
  ui_pause : option exn
}.

(** The surroundings of a run: the browser's answers for each row and the
    wall clock, read once for each event logged. *)
Record World : Type := {
  w_ui : RowContext -> RowUI;
  w_clock : nat -> string;
  w_integer_form : string -> option string
}.

(** The local variables of [process_autofill] that the loop updates. *)
Record RunState : Type := {
  logbook : LogBook;
  ok_rows : Z;
  skipped_rows : Z;
  error_rows : Z;
  recent_errors : list string;
  resume_entries : gmap Z csv_row;
  actions : list ui_action
}.

(** How the body of the loop ends: [continue] (or its last statement),
    [break], or an exception that nothing in the loop catches. *)
Inductive flow : Type := Next | Break | Raise (e : exn).

(** [a or b] on strings *)
Definition str_or (a b : string) : string := if String.eqb a "" then b else a.

(** [_format_match_value] *)
Definition _format_match_value (ctx : RowContext) (match_by : string) : string :=
  if String.eqb match_by "index" then str_of_int (table_index ctx)
  else if String.eqb match_by "idsbr" then str_or (idsbr ctx) ""
  else if String.eqb match_by "name" then str_or (nama ctx) ""
  else "".

Section Row.

Variable options : AutofillOptions.
Variable world : World.

(** [logbook.append(LogEvent(ts=timestamp(), ...))] *)
Definition log (st : RunState) (row_index : Z) (level : Level) (stage : string)
    (idsbr_ nama_ match_value note screenshot : string) : RunState :=
  {| logbook :=
       append (logbook st)
         {| ev_ts := w_clock world (length (lb_events (logbook st)));
            ev_row_index := row_index;
            ev_level := level;
            ev_stage := stage;
            ev_idsbr := idsbr_;
            ev_nama := nama_;
            ev_match_value := match_value;
            ev_note := note;
            ev_screenshot := screenshot |};
     ok_rows := ok_rows st;
     skipped_rows := skipped_rows st;
     error_rows := error_rows st;
     recent_errors := recent_errors st;
     resume_entries := resume_entries st;
     actions := actions st |}.

Definition act (st : RunState) (acts : list ui_action) : RunState :=
  {| logbook := logbook st;
     ok_rows := ok_rows st;
     skipped_rows := skipped_rows st;
     error_rows := error_rows st;
     recent_errors := recent_errors st;
     resume_entries := resume_entries st;
     actions := actions st ++ acts |}.

Definition count_ok (st : RunState) : RunState :=
  {| logbook := logbook st;
     ok_rows := ok_rows st + 1;
     skipped_rows := skipped_rows st;
     error_rows := error_rows st;
     recent_errors := recent_errors st;
     resume_entries := resume_entries st;
     actions := actions st |}.

Definition count_skipped (st : RunState) : RunState :=
  {| logbook := logbook st;
     ok_rows := ok_rows st;
     skipped_rows := skipped_rows st + 1;
     error_rows := error_rows st;
     recent_errors := recent_errors st;
     resume_entries := resume_entries st;
     actions := actions st |}.

Definition count_error (st : RunState) : RunState :=
  {| logbook := logbook st;
     ok_rows := ok_rows st;
     skipped_rows := skipped_rows st;
     error_rows := error_rows st + 1;
     recent_errors := recent_errors st;
     resume_entries := resume_entries st;
     actions := actions st |}.

Definition remember_error (st : RunState) (msg : string) : RunState :=
  {| logbook := logbook st;
     ok_rows := ok_rows st;
     skipped_rows := skipped_rows st;
     error_rows := error_rows st;
     recent_errors := recent_errors st ++ [msg];
     resume_entries := resume_entries st;
     actions := actions st |}.

Definition pop_resume (st : RunState) (idx : Z) : RunState :=
  {| logbook := logbook st;
     ok_rows := ok_rows st;
     skipped_rows := skipped_rows st;
     error_rows := error_rows st;
     recent_errors := recent_errors st;
     resume_entries := delete idx (resume_entries st);
     actions := actions st |}.

(** [if options.stop_on_error: break] then [continue] *)
Definition stop_or_next : flow :=
  if stop_on_error options then Break else Next.

(** [_log_screenshot]: the capture and its result *)
Definition screenshot (ui : RowUI) (st : RunState) (label : string)
    : RunState * ScreenshotResult :=
  (act st [ActScreenshot label], ui_screenshot ui label).

(** The text an f-string gives for a field of a prior line. *)
Definition fmt (v : option string) : string := default "None" v.

(** The resume branch of the loop body. *)
Definition resume_skip (ctx : RowContext) (prev : csv_row) (st : RunState)
    : RunState * flow :=
  let st := pop_resume st (display_index ctx) in
  let prev_level := csv_get prev "level" (Some "OK") in
  let prev_stage := csv_get prev "stage" (Some "") in
  let note_detail := csv_get prev "note" (Some "") in
  let extra := "Status sebelumnya: " +:+ fmt prev_level in
  let extra :=
    if String.eqb (default "" prev_stage) "" then extra
    else extra +:+ " | Stage: " +:+ fmt prev_stage in
  let extra :=
    if String.eqb (default "" note_detail) "" then extra
    else extra +:+ " | Catatan: " +:+ fmt note_detail in
  let st :=
    log st (display_index ctx) OK "RESUME_SKIP" (idsbr ctx) (nama ctx)
      (str_or (idsbr ctx) (nama ctx))
      ("Dilewati (resume). " +:+ extra) "" in
  (count_skipped st, Next).

(** The [try] around the click helpers. *)
Definition click_edit (ctx : RowContext) (ui : RowUI) (match_value : string)
    : click_result :=
  let perform_click := negb (dry_run options) in
  if String.eqb (match_by options) "index" then
    click_edit_by_index (ui_table_wait ui) (ui_index ui) (table_index ctx) perform_click
  else if String.eqb (match_by options) "idsbr" then
    click_edit_by_text (w_integer_form world) (ui_table_wait ui) (ui_text ui)
      match_value perform_click
  else if String.eqb (match_by options) "name" then
    click_edit_by_text (w_integer_form world) (ui_table_wait ui) (ui_text ui)
      match_value perform_click
  else (inr false, []).

(** [await page.bring_to_front()], the call number [k] of the row, where
    nothing catches what it raises. *)
Definition focus_list (ui : RowUI) (k : nat) (st : RunState) (fl : flow)
    : RunState * flow :=
  let st := act st [ActFocusList] in
  match ui_focus_list ui k with
  | Some exc => (st, Raise exc)
  | None => (st, fl)
  end.

(** The handler [except Exception as exc] of the submit step; [k] calls of
    [page.bring_to_front()] have been made in the row. *)
Definition submit_handler (ctx : RowContext) (ui : RowUI) (match_value : string)
    (k : nat) (exc : exn) (st : RunState) : RunState * flow :=
  let idx := display_index ctx in
  let '(st, shot) := screenshot ui st ("exception_submit_" +:+ str_of_int idx) in
  let note := note_with_reason ("EXCEPTION: " +:+ describe_exception exc) shot in
  let st :=
    log st idx ERROR "SUBMIT" (idsbr ctx) (nama ctx) match_value note
      (shot_path_or_empty shot) in
  let st := count_error st in
  let st := act st [ActCloseForm] in
  if stop_on_error options then (st, Break)
  else focus_list ui k st Next.

(** The loop body from the submit step on. *)
Definition submit_stage (ctx : RowContext) (ui : RowUI) (match_value : string)
    (k : nat) (st : RunState) : RunState * flow :=
  let idx := display_index ctx in
  let st := act st [ActSubmit] in
  match ui_submit ui with
  | SubmitReturns result =>
      if negb (String.eqb (sr_code result) "OK") then
        let '(st, shot) :=
          screenshot ui st
            ("submit_issue_" +:+ str_of_int idx +:+ "_" +:+ sr_code result) in
        let detail_note :=
          if String.eqb (sr_detail result) "" then sr_code result
          else sr_code result +:+ " | " +:+ sr_detail result in
        let note := note_with_reason detail_note shot in
        let st :=
          log st idx ERROR "SUBMIT" (idsbr ctx) (nama ctx) match_value note
            (shot_path_or_empty shot) in
        let st := count_error st in
        let st := act st [ActCloseForm; ActFocusList] in
        match ui_focus_list ui k with
        | Some exc => submit_handler ctx ui match_value (S k) exc st
        | None => (st, stop_or_next)
        end
      else
        let success_note := str_or (sr_detail result) "Submit final sukses" in
        let st :=
          log st idx OK "SUBMIT" (idsbr ctx) (nama ctx) match_value success_note "" in
        let st := act st [ActCloseForm; ActFocusList] in
        match ui_focus_list ui k with
        | Some exc => (st, Raise exc)
        | None =>
            match ui_pause ui with
            | Some exc => (st, Raise exc)
            | None =>
                let st :=
                  log st idx OK "ROW_DONE" (idsbr ctx) (nama ctx) match_value
                    "Baris selesai diproses" "" in
                (count_ok st, Next)
            end
        end
  | SubmitRaises exc => submit_handler ctx ui match_value k exc st
  end.

(** The handler [except Exception as exc] of the fill step. *)
Definition fill_handler (ctx : RowContext) (ui : RowUI) (match_value : string)
    (k : nat) (exc : exn) (st : RunState) : RunState * flow :=
  let idx := display_index ctx in
  let '(st, shot) := screenshot ui st ("exception_fill_form_" +:+ str_of_int idx) in
  let note := note_with_reason ("Exception isi form: " +:+ describe_exception exc) shot in
  let st :=
    log st idx ERROR "FILL" (idsbr ctx) (nama ctx) match_value note
      (shot_path_or_empty shot) in
  let st := count_error st in
  let st := act st [ActCloseForm] in
  if stop_on_error options then (st, Break)
  else focus_list ui k st Next.

(** The loop body from the fill step on. *)
Definition fill_stage (ctx : RowContext) (ui : RowUI) (match_value : string)
    (k : nat) (st : RunState) : RunState * flow :=
  let idx := display_index ctx in
  let st := act st [ActFill] in
  match ui_fill ui with
  | FillSummary updated skipped errors =>
      let note_fill :=
        "Form terisi (update=" +:+ str_of_int updated +:+ ", skip="
        +:+ str_of_int skipped +:+ ")" in
      match errors with
      | [] =>
          let st :=
            log st idx OK "FILL" (idsbr ctx) (nama ctx) match_value note_fill "" in
          submit_stage ctx ui match_value k st
      | _ =>
          let note_fill := note_fill +:+ " | Kendala: " +:+ join ", " errors in
          let '(st, shot) := screenshot ui st ("fill_errors_" +:+ str_of_int idx) in
          let st :=
            log st idx ERROR "FILL" (idsbr ctx) (nama ctx) match_value note_fill
              (shot_path_or_empty shot) in
          let st := count_error st in
          let st := act st [ActCloseForm; ActFocusList] in
          match ui_focus_list ui k with
          | Some exc => fill_handler ctx ui match_value (S k) exc st
          | None => (st, stop_or_next)
          end
      end
  | FillRaises exc => fill_handler ctx ui match_value k exc st
  end.

(** The loop body from the lock check on.  [is_locked_page] guards each
    of its waits. *)
Definition lock_stage (ctx : RowContext) (ui : RowUI) (match_value : string)
    (form : FormPage) (k : nat) (st : RunState) : RunState * flow :=
  let idx := display_index ctx in
  if is_locked_page form then
    let '(st, shot) := screenshot ui st ("locked_" +:+ str_of_int idx) in
    let note :=
      note_with_reason
        "CODE:FORM_LOCKED Usaha sedang diedit oleh pengguna lain. Tutup tab sebelum lanjut."
        shot in
    let st :=
      log st idx WARN "ACCESS" (idsbr ctx) (nama ctx) match_value note
        (shot_path_or_empty shot) in
    let st := act st [ActCloseForm; ActFocusList] in
    match ui_focus_list ui k with
    | Some exc => (st, Raise exc)
    | None => (count_skipped st, Next)
    end
  else fill_stage ctx ui match_value k st.

(** The loop body once the form page is known and focused.
    [is_finalized_form] guards each of its probes, so what the handler
    around the finalized check catches is the exception of
    [page.bring_to_front()]: the row is then not counted as skipped and the
    body goes on with the lock check. *)
Definition form_stage (ctx : RowContext) (ui : RowUI) (match_value : string)
    (open_note : string) (form : FormPage) (st : RunState) : RunState * flow :=
  let idx := display_index ctx in
  let st :=
    if String.eqb open_note "" then st
    else log st idx OK "OPEN_TAB" (idsbr ctx) (nama ctx) match_value open_note "" in
  if is_finalized_form form then
    let st :=
      log st idx OK "FINAL_SKIP" (idsbr ctx) (nama ctx) match_value
        "CODE:FINAL_ALREADY_SUBMITTED Dilewati: form sudah final (tombol Cancel Submit terlihat)."
        "" in
    let st := act st [ActCloseForm; ActFocusList] in
    match ui_focus_list ui 0 with
    | Some _ => lock_stage ctx ui match_value form 1 st
    | None => (count_skipped st, Next)
    end
  else lock_stage ctx ui match_value form 0 st.

(** The loop body after a successful click, outside dry-run. *)
Definition open_stage (ctx : RowContext) (ui : RowUI) (match_value : string)
    (st : RunState) : RunState * flow :=
  let idx := display_index ctx in
  let st := if ui_confirm_edit ui then act st [ActConfirmEdit] else st in
  let st := act st [ActOpenForm] in
  match ui_open ui with
  | inl exc => (st, Raise exc)
  | inr opened =>
      let st := act st (replicate (ui_extra_tabs ui) ActCloseExtraTab) in
      match new_page opened with
      | None =>
          let '(st, shot) := screenshot ui st ("no_new_tab_" +:+ str_of_int idx) in
          let detail :=
            str_or (open_error opened) "CODE:OPEN_TAB_NO_PAGE Tidak ada tab form." in
          let note := note_with_reason detail shot in
          let st :=
            log st idx ERROR "OPEN_TAB" (idsbr ctx) (nama ctx) match_value note
              (shot_path_or_empty shot) in
          (count_error st, stop_or_next)
      | Some form =>
          let st := act st [ActFocusForm] in
          match ui_focus_form ui with
          | Some exc => (st, Raise exc)
          | None => form_stage ctx ui match_value (open_note opened) form st
          end
      end
  end.

(** A failure of the click step: the event, the counter and the message
    kept for the notifier. *)
Definition click_failure (ctx : RowContext) (ui : RowUI) (match_value : string)
    (label code_ note : string) (st : RunState) : RunState * flow :=
  let idx := display_index ctx in
  let '(st, shot) := screenshot ui st (label +:+ str_of_int idx) in
  let st :=
    log st idx ERROR "CLICK_EDIT" (idsbr ctx) (nama ctx) match_value
      (note_with_reason note shot) (shot_path_or_empty shot) in
  let st := count_error st in
  let st := remember_error st ("Baris " +:+ str_of_int idx +:+ ": " +:+ code_) in
  (st, stop_or_next).

(** The body of [for ctx in contexts]. *)
Definition process_row (ctx : RowContext) (st : RunState) : RunState * flow :=
  let ui := w_ui world ctx in
  let idx := display_index ctx in
  let resumed :=
    if resume options then resume_entries st !! idx else None in
  match resumed with
  | Some prev => resume_skip ctx prev st
  | None =>
      let match_value := _format_match_value ctx (match_by options) in
      let target :=
        "(target " +:+ match_by options +:+ "=" +:+ str_or match_value "-" +:+ ")" in
      let '(clicked, acts) := click_edit ctx ui match_value in
      let st := act st acts in
      match clicked with
      | inl exc =>
          click_failure ctx ui match_value "exception_click_edit_"
            "CODE:CLICK_EDIT_EXCEPTION"
            ("CODE:CLICK_EDIT_EXCEPTION " +:+ target +:+ " : " +:+ describe_exception exc)
            st
      | inr false =>
          click_failure ctx ui match_value "gagal_click_edit_"
            "CODE:CLICK_EDIT_TIMEOUT"
            ("CODE:CLICK_EDIT_TIMEOUT Tombol Edit tidak ditemukan atau tidak bisa diklik "
             +:+ target)
            st
      | inr true =>
          if dry_run options then
            let st :=
              log st idx OK "DRY_RUN" (idsbr ctx) (nama ctx) match_value
                "Tombol Edit ditemukan (dry-run, form tidak dibuka)." "" in
            (count_ok st, Next)
          else open_stage ctx ui match_value st
      end
  end.

(** [for ctx in contexts: ...]: the state the loop ends in, and the
    exception that ends it, if one does. *)
Fixpoint run_loop (contexts : list RowContext) (st : RunState) : RunState * option exn :=
  match contexts with
  | [] => (st, None)
  | ctx :: rest =>
      match process_row ctx st with
      | (st', Next) => run_loop rest st'
      | (st', Break) => (st', None)
      | (st', Raise exc) => (st', Some exc)
      end
  end.

Definition run_rows (contexts : list RowContext) (st : RunState) : RunState :=
  (run_loop contexts st).1.

End Row.

(** [recent_errors[-5:]] *)
Definition last5 (l : list string) : list string :=
  drop (length l - 5)%nat l.

Definition initial_state (has_flag : bool) (entries : gmap Z csv_row) : RunState :=
  {| logbook := {| lb_events := []; lb_has_flag := has_flag; lb_flag_raised := false |};
     ok_rows := 0;
     skipped_rows := 0;
     error_rows := 0;
     recent_errors := [];
     resume_entries := entries;
     actions := [] |}.

(** [process_autofill], from the loaded dataframe on.  [prior] is the prior
    log at the path [resolve_resume_log_path] picks; [connect] is the
    exception of the connection to the browser ([ensure_cdp_ready],
    [attach_browser], [pick_active_page]), if one is raised.  The result is
    the exception that ends the run (that of the connection, or one that
    escapes the loop), or the statistics returned together with the final
    state. *)
Definition process_autofill (options : AutofillOptions) (has_flag : bool)
    (df : DataFrame) (prior : prior_log) (connect : option exn) (world : World)
    : exn + (AutofillStats * RunState) :=
  match load_rows options df with
  | inl exc => inl exc
  | inr (contexts, start_display, end_display) =>
      let entries :=
        if resume options
        then load_resume_entries prior start_display end_display
        else ∅ in
      match connect with
      | Some exc => inl exc
      | None =>
          match run_loop options world contexts (initial_state has_flag entries) with
          | (_, Some exc) => inl exc
          | (st, None) =>
              inr ({| success_count := ok_rows st;
                      error_count := error_rows st;
                      skip_count := skipped_rows st;
                      stat_recent_errors := last5 (recent_errors st) |}, st)
          end
      end
  end.

End Autofill.

Import Autofill.
(** ** Notions used to state the properties *)

Module Notions.

(** The ten digit characters. *)
Definition DIGIT_CHARS : list ascii :=
  ["0"; "1"; "2"; "3"; "4"; "5"; "6"; "7"; "8"; "9"]%char.

(** [digits_in_order text digits]: [digits] is what is left of [text] when
    every character that is not one of the ten digits is taken out, the
    digits staying in their order. *)
Inductive digits_in_order : string -> string -> Prop :=
| digits_end : digits_in_order "" ""
| digits_keep (c : ascii) (text digits : string) :
    c ∈ DIGIT_CHARS ->
    digits_in_order text digits ->
    digits_in_order (String c text) (String c digits)
| digits_drop (c : ascii) (text digits : string) :
    c ∉ DIGIT_CHARS ->
    digits_in_order text digits ->
    digits_in_order (String c text) digits.

(** The trace of [n] failed attempts, each followed by its sleep, the
    first sleep being [Slept k]. *)
Fixpoint failed_attempts (k n : nat) : list retry_event :=
  match n with
  | O => []
  | S n' => Called :: Slept k :: failed_attempts (S k) n'
  end.

(** The number of calls of [fn] in a trace. *)
Definition calls (tr : list retry_event) : nat :=
  length (filter (fun ev => ev = Called) tr).

(** The prior log a later run finds after [book] was saved. *)
Definition saved_log (book : LogBook) : prior_log :=
  match save book with
  | None => NoFile
  | Some rows => CsvRows rows
  end.

Definition book_of (events : list LogEvent) : LogBook :=
  {| lb_events := events; lb_has_flag := false; lb_flag_raised := false |}.

(** The last event of a log for a display index. *)
Definition last_event_of (idx : Z) (events : list LogEvent) : option LogEvent :=
  last (filter (fun ev => ev_row_index ev = idx) events).

(** Storing an item under its key, when it has one. *)
Definition put {A B : Type} (key : A -> option Z) (val : A -> B)
    (m : gmap Z B) (a : A) : gmap Z B :=
  match key a with
  | Some i => <[i := val a]> m
  | None => m
  end.

(** The display index a line of a CSV carries: the number its
    [row_index] field spells, when that field is a string of digits. *)
Definition line_index (row : csv_row) : option Z :=
  match csv_get row "row_index" (Some "") with
  | Some text => if isdigit text then int_of_str text else None
  | None => None
  end.

(** The last line of a CSV that carries a display index. *)
Definition last_line_of (idx : Z) (rows : list csv_row) : option csv_row :=
  last (filter (fun row => line_index row = Some idx) rows).

(** Every line has a text (possibly empty) under [row_index], or no such
    column at all: no line is cut short before that column. *)
Definition complete_line (row : csv_row) : Prop :=
  csv_get row "row_index" (Some "") <> None.

(** The events a step of the run added to the log, and the actions it
    added to the trace. *)
Definition new_events (st st' : RunState) : list LogEvent :=
  drop (length (lb_events (logbook st))) (lb_events (logbook st')).

Definition new_actions (st st' : RunState) : list ui_action :=
  drop (length (actions st)) (actions st').

Definition is_error (ev : LogEvent) : Prop := ev_level ev = ERROR.



(** The exception of [open_form_page], if it raises one. *)
Definition open_raises (ui : RowUI) : option exn :=
  match ui_open ui with
  | inl exc => Some exc
  | inr _ => None
  end.

(** The form a row opens, if [open_form_page] returns one. *)
Definition opened_form (ui : RowUI) : option FormPage :=
  match ui_open ui with
  | inl _ => None
  | inr opened => new_page opened
  end.

(** What the calls of a row that no handler of the loop covers raise:
    [open_form_page], [new_page.bring_to_front()], the calls of
    [page.bring_to_front()] (there are at most three in a row) and
    [page.wait_for_timeout(800)]. *)
Definition unguarded (ui : RowUI) : list (option exn) :=
  [ open_raises ui; ui_focus_form ui;
    ui_focus_list ui 0; ui_focus_list ui 1; ui_focus_list ui 2; ui_pause ui ].

(** None of them raises. *)
Definition quiet (ui : RowUI) : Prop := Forall (fun o => o = None) (unguarded ui).

(** What a part of the loop body, entered in state [st] for the row of
    display index [idx] and ending in [r], does to the log and how it
    ends: it appends events of the row, those at level ERROR last and at
    most two of them (at most one when no unguarded call raises); it ends
    in [break] exactly when [stop_on_error] is set and it has logged an
    ERROR event; and an exception leaves it only from an unguarded
    call. *)
Definition row_step (options : AutofillOptions) (ui : RowUI) (idx : Z)
    (st : RunState) (r : RunState * flow) : Prop :=
  exists oks errs,
    lb_events (logbook r.1) = lb_events (logbook st) ++ oks ++ errs
    /\ Forall (fun ev => ~ is_error ev /\ ev_row_index ev = idx) oks
    /\ Forall (fun ev => is_error ev /\ ev_row_index ev = idx) errs
    /\ (length errs <= 2)%nat
    /\ (r.2 = Break <-> stop_on_error options = true /\ errs <> [])
    /\ (forall exc, r.2 = Raise exc -> Some exc ∈ unguarded ui)
    /\ (quiet ui -> (length errs <= 1)%nat).

(** The actions that click an edit control or open, fill or submit a
    form. *)
Definition touches_form (a : ui_action) : Prop :=
  a = ActClickEdit \/ a = ActConfirmEdit \/ a = ActOpenForm
  \/ a = ActFill \/ a = ActSubmit.

(** The prior line under which resume skips a row reached in state [st]:
    the test [options.resume and ctx.display_index in resume_entries]. *)
Definition resumed (options : AutofillOptions) (ctx : RowContext) (st : RunState)
    : option csv_row :=
  if resume options then resume_entries st !! display_index ctx else None.

(** What the click step of a row returns: [inr true] when the edit control
    is found (and, outside dry-run, clicked). *)
Definition click_answer (options : AutofillOptions) (world : World) (ctx : RowContext)
    : exn + bool :=
  (click_edit options world ctx (w_ui world ctx)
     (_format_match_value ctx (match_by options))).1.

(** The three counters of a state. *)
Definition counts (st : RunState) : Z * Z * Z :=
  (ok_rows st, error_rows st, skipped_rows st).

End Notions.

Import Notions.
(** ** Concrete inputs used in the examples *)

Module Samples.

(** The prior log of tests/test_resume.py: columns [row_index], [level],
    [note]. *)
Definition test_line (idx level note : string) : csv_row :=
  list_to_map [("row_index", Some idx); ("level", Some level); ("note", Some note)].

Definition test_log : list csv_row :=
  [ test_line "1" "OK" "ok"; test_line "2" "ERROR" "err"; test_line "5" "OK" "ok" ].

(** A log in the format of logbook.py whose second line was cut after its
    first field. *)
Definition full_line (ts idx level stage : string) : csv_row :=
  list_to_map
    [ ("ts", Some ts); ("row_index", Some idx); ("level", Some level);
      ("stage", Some stage); ("idsbr", Some ""); ("nama", Some "");
      ("match_value", Some ""); ("note", Some ""); ("screenshot", Some "") ].

Definition cut_line (ts : string) : csv_row :=
  list_to_map
    [ ("ts", Some ts); ("row_index", None); ("level", None);
      ("stage", None); ("idsbr", None); ("nama", None);
      ("match_value", None); ("note", None); ("screenshot", None) ].

Definition cut_log : list csv_row :=
  [ full_line "20250101_080000" "1" "OK" "ROW_DONE"; cut_line "20250101_08" ].

Definition sample_event (idx : Z) (level : Level) (stage : string) : LogEvent :=
  {| ev_ts := "20250101_080000"; ev_row_index := idx; ev_level := level;
     ev_stage := stage; ev_idsbr := ""; ev_nama := ""; ev_match_value := "";
     ev_note := ""; ev_screenshot := "" |}.

(** The events of a saved log: rows 1 and 5 ended at OK, row 2 opened its
    tab and then failed to fill. *)
Definition saved_events : list LogEvent :=
  [ sample_event 1 OK "ROW_DONE"; sample_event 2 OK "OPEN_TAB";
    sample_event 2 ERROR "FILL"; sample_event 5 OK "ROW_DONE" ].

(** The test's flaky coroutine: the world is the number of calls so far. *)
Definition flaky (calls_so_far : nat) : outcome string * nat :=
  (if (S calls_so_far <? 2)%nat
   then Raised (Exn "RuntimeError" "fail first")
   else Returned "ok",
   S calls_so_far).

(** A coroutine that raises on every call, naming the call. *)
Definition always_failing (calls_so_far : nat) : outcome string * nat :=
  (Raised (Exn "RuntimeError" (str_of_int (Z.of_nat (S calls_so_far)))),
   S calls_so_far).

(** A spreadsheet with every required column and three rows. *)
Definition sample_columns : list string :=
  ["idsbr"; "nama"; "status"; "email"; "sumber"; "catatan"] ++ PROFILE_FIELD_KEYS.

Definition sample_row (id name : string) : gmap string pyobj :=
  list_to_map
    [ ("idsbr", PyStr id); ("nama", PyStr name); ("status", PyStr "1");
      ("email", PyNaN); ("nomor_telepon", PyStr "0812-3456-7890") ].

Definition sample_df : DataFrame :=
  {| df_columns := sample_columns;
     df_rows := [sample_row "101" "Toko A"; sample_row "102" "Toko B";
                 sample_row "103" "Toko C"] |}.

Definition sample_options : AutofillOptions :=
  {| match_by := "index"; start_row := Some 2; end_row := None;
     stop_on_error := false; resume := false; dry_run := false |}.

(** The contexts of the first two rows of the sample spreadsheet. *)
Definition row1 : RowContext := _context_from_row (sample_row "101" "Toko A") 0 1.
Definition row2 : RowContext := _context_from_row (sample_row "102" "Toko B") 1 2.

(** A form that shows only Cancel Submit; a form locked by another user;
    an editable form. *)
Definition finalized_page : FormPage :=
  {| cancel_submit := Visible; submit_final_role := Hidden;
     submit_final_text := ProbeError;
     lock_text_edit := false; lock_text_user := false; back_to_home := false |}.


Definition open_page : FormPage :=
  {| cancel_submit := Hidden; submit_final_role := Visible;
     submit_final_text := Visible;
     lock_text_edit := false; lock_text_user := false; back_to_home := false |}.

(** A browser in which every edit control is found and every click
    lands, and whose forms all show [page]. *)
Definition ui_with (page : FormPage) : RowUI :=
  {| ui_table_wait := None;
     ui_index := {| ip_rows := 10; ip_edit_buttons := 1;
                    ip_fallback_buttons := 0; ip_click := true |};
     ui_text := fun _ => {| tp_used_filter := true; tp_row_found := true;
                            tp_edit_buttons := 1; tp_fallback_buttons := 0;
                            tp_click := true |};
     ui_screenshot := fun label =>
       {| shot_path := Some ("shots/" +:+ label +:+ ".png"); shot_reason := None |};
     ui_confirm_edit := false;
     ui_open := inr {| new_page := Some page;
                       open_note := "Tab form baru terdeteksi (event page).";
                       open_error := "" |};
     ui_extra_tabs := 0;
     ui_focus_form := None;
     ui_focus_list := fun _ => None;
     ui_fill := FillSummary 3 1 [];
     ui_submit := SubmitReturns {| sr_code := "OK"; sr_detail := "" |};
     ui_pause := None |}.


(** What a call on a page that has been closed raises. *)
Definition target_closed : exn :=
  Exn "TargetClosedError" "Target page, context or browser has been closed".

(** A browser in which the form opens in the tab of the list and shows
    [page]: [new_page] is the list page itself, so that
    [new_page.close()] closes the list, and every later call on either
    raises. *)
Definition ui_same_tab (page : FormPage) : RowUI :=
  {| ui_table_wait := None;
     ui_index := ui_index (ui_with page);
     ui_text := ui_text (ui_with page);
     ui_screenshot := ui_screenshot (ui_with page);
     ui_confirm_edit := false;
     ui_open := inr {| new_page := Some page;
                       open_note := "Form dibuka di tab yang sama (URL/title berubah).";
                       open_error := "" |};
     ui_extra_tabs := 0;
     ui_focus_form := None;
     ui_focus_list := fun _ => Some target_closed;
     ui_fill := FillRaises target_closed;
     ui_submit := SubmitRaises target_closed;
     ui_pause := Some target_closed |}.

Definition world_of (ui : RowContext -> RowUI) : World :=
  {| w_ui := ui;
     w_clock := fun n => "t" +:+ str_of_int (Z.of_nat n);
     w_integer_form := fun _ => None |}.

Definition options_with (stop resume_ dry : bool) : AutofillOptions :=
  {| match_by := "index"; start_row := None; end_row := Some 2;
     stop_on_error := stop; resume := resume_; dry_run := dry |}.

(** A prior log in which rows 1 and 2 ended at level OK. *)
Definition both_done : list csv_row :=
  [ full_line "20250101_080000" "1" "OK" "ROW_DONE";
    full_line "20250101_080100" "2" "OK" "ROW_DONE" ].

End Samples.

Import Samples.

Example norm_phone_dashes :
  norm_phone (PyStr "0812-3456-7890") = "081234567890".
Proof. reflexivity. Qed.

Example norm_phone_parens :
  norm_phone (PyStr " (021) 123 4567 ") = "0211234567".
Proof. reflexivity. Qed.

Example norm_space_mixed :
  norm_space (PyStr (" a" +:+ String (ascii_of_N 10) "b" +:+ String (ascii_of_N 9) "c ")) = "a b c".
Proof. reflexivity. Qed.

Example norm_float_first_number : norm_float (PyStr "abc 12.5 xyz") = "12.5".
Proof. reflexivity. Qed.

Example norm_float_comma : norm_float (PyStr " -7,3 ") = "-7.3".
Proof. reflexivity. Qed.

Example norm_float_none : norm_float (PyStr "no number") = "".
Proof. reflexivity. Qed.

Example text_variants_decimal :
  _text_variants (fun _ => Some "12") " 12,50 " = ["12,50"; "12.50"; "12.5"; "12"].
Proof. vm_compute. reflexivity. Qed.

Example text_variants_name :
  _text_variants (fun _ => None) "Toko A" = ["Toko A"].
Proof. vm_compute. reflexivity. Qed.

(** ** Facts about the string primitives *)

Section StringFacts.

Lemma space_not_digit c : is_space c = true -> is_digit c = false.
Proof.
  unfold is_space, is_digit. intros H.
  apply orb_true_iff in H.
  apply andb_false_iff.
  destruct H as [H | H]; apply andb_true_iff in H; destruct H as [H1 H2];
    apply N.leb_le in H1, H2; left; apply N.leb_gt; lia.
Qed.

Lemma digit_not_space c : is_digit c = true -> is_space c = false.
Proof.
  intros H. destruct (is_space c) eqn:E; [|done].
  apply space_not_digit in E. congruence.
Qed.

Lemma filter_digit_lstrip s :
  str_filter is_digit (lstrip s) = str_filter is_digit s.
Proof.
  induction s as [|c r IH]; simpl; [done|].
  destruct (is_space c) eqn:E; [|done].
  by rewrite (space_not_digit _ E).
Qed.

Lemma filter_digit_rstrip s :
  str_filter is_digit (rstrip s) = str_filter is_digit s.
Proof.
  induction s as [|c r IH]; simpl; [done|].
  destruct (rstrip r) as [|c' r'] eqn:E.
  - simpl in IH. rewrite <- IH.
    destruct (is_space c) eqn:Es; simpl.
    + by rewrite (space_not_digit _ Es).
    + by destruct (is_digit c).
  - change (str_filter is_digit (String c (String c' r')))
      with (if is_digit c then String c (str_filter is_digit (String c' r'))
            else str_filter is_digit (String c' r')).
    by rewrite IH.
Qed.

Lemma filter_digit_strip s :
  str_filter is_digit (strip s) = str_filter is_digit s.
Proof. unfold strip. by rewrite filter_digit_rstrip, filter_digit_lstrip. Qed.

Lemma filter_digit_re_sub_ws b s :
  str_filter is_digit (re_sub_ws_from b s) = str_filter is_digit s.
Proof.
  revert b. induction s as [|c r IH]; intros b; simpl; [done|].
  destruct (is_space c) eqn:E.
  - rewrite (space_not_digit _ E). destruct b; simpl; by rewrite IH.
  - simpl. by rewrite IH.
Qed.

Lemma filter_digit_all s : str_forall is_digit (str_filter is_digit s) = true.
Proof.
  induction s as [|c r IH]; simpl; [done|].
  destruct (is_digit c) eqn:E; simpl; [by rewrite E|done].
Qed.

Lemma filter_digit_id s :
  str_forall is_digit s = true -> str_filter is_digit s = s.
Proof.
  induction s as [|c r IH]; simpl; [done|].
  intros H. apply andb_true_iff in H as [H1 H2].
  rewrite H1. by rewrite IH.
Qed.

Lemma lstrip_digits s : str_forall is_digit s = true -> lstrip s = s.
Proof.
  destruct s as [|c r]; simpl; [done|].
  intros H. apply andb_true_iff in H as [H1 _].
  by rewrite (digit_not_space _ H1).
Qed.

Lemma rstrip_digits s : str_forall is_digit s = true -> rstrip s = s.
Proof.
  induction s as [|c r IH]; simpl; [done|].
  intros H. apply andb_true_iff in H as [H1 H2].
  rewrite (IH H2). destruct r; [|done].
  by rewrite (digit_not_space _ H1).
Qed.

Lemma strip_digits s : str_forall is_digit s = true -> strip s = s.
Proof.
  intros H. unfold strip. rewrite (lstrip_digits _ H). by apply rstrip_digits.
Qed.

Lemma isdigit_forall s : isdigit s = true -> str_forall is_digit s = true.
Proof. by destruct s. Qed.

Lemma norm_space_digits (x : pyobj) :
  str_filter is_digit (norm_space x) = str_filter is_digit (py_str x).
Proof.
  destruct x; simpl; try done;
    by rewrite filter_digit_strip; unfold re_sub_ws; rewrite filter_digit_re_sub_ws.
Qed.

End StringFacts.



(** ** Phone normalisation (utils.py, [norm_phone]) *)

Lemma is_digit_chars c : is_digit c = bool_decide (c ∈ DIGIT_CHARS).
Proof. destruct c as [[|] [|] [|] [|] [|] [|] [|] [|]]; vm_compute; reflexivity. Qed.

Lemma filter_digits_in_order s : digits_in_order s (str_filter is_digit s).
Proof.
  induction s as [|c r IH]; simpl; [constructor|].
  rewrite is_digit_chars. case_bool_decide; by constructor.
Qed.

(** C8. For every input value [x], [norm_phone x] is the digit characters
    of the text of [x], in order: what is left of the text when every
    character other than the ten digits is taken out.  It therefore holds
    digits only, a text of digits comes back as it is, and normalising a
    second time changes nothing. *)
Theorem norm_phone_digits_idempotent (x : pyobj) :
  norm_phone x = str_filter is_digit (py_str x)
  /\ digits_in_order (py_str x) (norm_phone x)
  /\ str_forall is_digit (norm_phone x) = true
  /\ norm_phone (PyStr (norm_phone x)) = norm_phone x
  /\ norm_phone (PyStr "0812-3456-7890") = "081234567890"
  /\ norm_phone (PyStr " (021) 123 4567 ") = "0211234567"
  /\ norm_phone (PyStr "+62 812 a/b") = "62812"
  /\ norm_phone (PyStr "n/a") = ""
  /\ norm_phone PyNone = ""
  /\ norm_phone PyNaN = "".
Proof.
  assert (H : norm_phone x = str_filter is_digit (py_str x)).
  { unfold norm_phone. rewrite norm_space_digits.
    destruct x; reflexivity. }
  split; [exact H|]. split; [rewrite H; apply filter_digits_in_order|]. split.
  - unfold norm_phone. apply filter_digit_all.
  - split; [|repeat split; reflexivity].
    unfold norm_phone at 1. rewrite norm_space_digits. simpl.
    apply filter_digit_id. unfold norm_phone. apply filter_digit_all.
Qed.

(** ** Status normalisation (loader.py, [_normalize_status]) *)

Example normalize_status_1 : _normalize_status "1" = "Aktif".
Proof. vm_compute. reflexivity. Qed.

Example normalize_status_8 : _normalize_status "8" = "Aktif Nonrespon".
Proof. vm_compute. reflexivity. Qed.

Example normalize_status_custom : _normalize_status "Custom" = "Custom".
Proof. vm_compute. reflexivity. Qed.

Example normalize_status_12 : _normalize_status "12" = "12".
Proof. vm_compute. reflexivity. Qed.

Lemma numeric_items_digit_nonempty k label :
  (k, label) ∈ STATUS_NUMERIC_ITEMS -> isdigit k = true /\ label <> "".
Proof.
  unfold STATUS_NUMERIC_ITEMS. intros H.
  repeat (apply elem_of_cons in H as [H | H]; [inversion H; subst; done|]).
  by apply elem_of_nil in H.
Qed.

Lemma eqb_empty_false s : s <> "" -> String.eqb s "" = false.
Proof. intros H. by apply String.eqb_neq. Qed.

(** C6. The numeric strings "1" to "11" are the keys of the label table
    and normalise to its entries; any other string comes back unchanged,
    unless its lower-case form is a key of the alias table, whose label is
    then returned: so an alias written in capitals, or with capital
    initials, gets its label like the alias in lower case, while a text
    that is no alias in any case is left alone. *)
Theorem normalize_status_table_or_alias (s : string) :
  STATUS_NUMERIC_ITEMS.*1 = ["1"; "2"; "3"; "4"; "5"; "6"; "7"; "8"; "9"; "10"; "11"]
  /\ _normalize_status s =
       match STATUS_NUMERIC_MAP !! s with
       | Some label => label
       | None =>
           match STATUS_NORMALIZATION !! lower s with
           | Some canonical => canonical
           | None => s
           end
       end
  /\ _normalize_status "belum berproduksi" = "Belum Beroperasi/Berproduksi"
  /\ _normalize_status "Belum Berproduksi" = "Belum Beroperasi/Berproduksi"
  /\ _normalize_status "BELUM BERPRODUKSI" = "Belum Beroperasi/Berproduksi"
  /\ _normalize_status "Aktif NonRespons" = "Aktif Nonrespon"
  /\ _normalize_status "Belum Produksi" = "Belum Produksi"
  /\ map _normalize_status ["1"; "2"; "3"; "4"; "5"; "6"; "7"; "8"; "9"; "10"; "11"]
     = [ "Aktif"; "Tutup Sementara"; "Belum Beroperasi/Berproduksi"; "Tutup";
         "Alih Usaha"; "Tidak Ditemukan"; "Aktif Pindah"; "Aktif Nonrespon";
         "Duplikat"; "Salah Kode Wilayah"; "Salah Kode Wilayah" ]
  /\ map _normalize_status ["0"; "12"; "01"; " 1"] = ["0"; "12"; "01"; " 1"].
Proof.
  split; [reflexivity|].
  split; [|repeat split; vm_compute; reflexivity].
  unfold _normalize_status.
  destruct (String.eqb_spec s "") as [->|Hne]; [vm_compute; reflexivity|].
  change (default s (STATUS_NORMALIZATION !! lower s))
    with (match STATUS_NORMALIZATION !! lower s with
          | Some canonical => canonical
          | None => s
          end).
  destruct (isdigit s) eqn:Hd.
  - rewrite (strip_digits s (isdigit_forall s Hd)).
    destruct (STATUS_NUMERIC_MAP !! s) as [label|] eqn:Hl; [|done].
    apply elem_of_list_to_map_2 in Hl.
    apply numeric_items_digit_nonempty in Hl as [_ Hl].
    by rewrite (eqb_empty_false _ Hl).
  - destruct (STATUS_NUMERIC_MAP !! s) as [label|] eqn:Hl; [|done].
    apply elem_of_list_to_map_2 in Hl.
    apply numeric_items_digit_nonempty in Hl as [Hl _]. congruence.
Qed.

(** ** Row loading (excel_loader.py [slice_rows], loader.py [load_rows]) *)

Section RowLoading.

Variable df : DataFrame.

Lemma iloc_in_range i :
  0 <= i < df_len df ->
  exists row, iloc df i = Some row /\ df_rows df !! Z.to_nat i = Some row.
Proof.
  intros [H0 Hn]. unfold iloc.
  assert (Hlt : (Z.to_nat i < length (df_rows df))%nat)
    by (unfold df_len in Hn; lia).
  apply lookup_lt_is_Some_2 in Hlt as [row Hrow].
  exists row. split; [|done].
  apply Z.leb_le in H0. apply Z.ltb_lt in Hn. by rewrite H0, Hn.
Qed.

(** The loop never indexes outside the dataframe when its indices are
    positions of rows. *)
Lemma build_contexts_total (indices : list Z) :
  Forall (fun i => 0 <= i < df_len df) indices ->
  exists contexts,
    build_contexts df indices = Some contexts
    /\ length contexts = length indices
    /\ forall (k : nat) i, indices !! k = Some i ->
         exists row, df_rows df !! Z.to_nat i = Some row
                     /\ contexts !! k = Some (_context_from_row row i (i + 1)).
Proof.
  induction indices as [|i rest IH]; intros Hall.
  - exists []. repeat split. intros k i Hk. by rewrite lookup_nil in Hk.
  - apply Forall_cons in Hall as [Hi Hrest].
    destruct (IH Hrest) as (cs & Hcs & Hlen & Hnth).
    destruct (iloc_in_range i Hi) as (row & Hiloc & Hrow).
    exists (_context_from_row row i (i + 1) :: cs). simpl.
    rewrite Hiloc, Hcs. simpl. repeat split; [by rewrite Hlen|].
    intros [|k] j Hk; simpl in Hk.
    + inversion Hk; subst. by exists row.
    + by apply Hnth.
Qed.

Lemma slice_rows_within (start end_ : option Z) :
  Forall (fun i => 0 <= i < df_len df)
         (py_range (slice_rows df start end_).1 (slice_rows df start end_).2).
Proof.
  unfold py_range. apply Forall_seqZ. intros i Hi.
  unfold slice_rows in *. simpl in *.
  assert (0 <= df_len df) by (unfold df_len; lia).
  destruct start, end_; lia.
Qed.

End RowLoading.

(** C5. Whenever the columns pass validation, [load_rows] returns; the
    1-indexed inclusive range [(start?, end?)] has become the half-open
    0-indexed slice from [max(start-1, 0)] (0 when [start] is absent) to
    [min(end, n)] ([n] when [end] is absent), and the context built from
    the row at position [i] of the dataframe has [table_index = i] and
    [display_index = i + 1]. *)
Theorem load_rows_slice_display_index (options : AutofillOptions) (df : DataFrame) :
  _validate_columns options df = None ->
  let n := df_len df in
  let lo := match start_row options with None => 0 | Some s => Z.max (s - 1) 0 end in
  let hi := match end_row options with None => n | Some e => Z.min e n end in
  slice_rows df (start_row options) (end_row options) = (lo, hi)
  /\ exists contexts start_display end_display,
       load_rows options df = inr (contexts, start_display, end_display)
       /\ length contexts = Z.to_nat (hi - lo)
       /\ forall (k : nat) ctx, contexts !! k = Some ctx ->
            let i := lo + Z.of_nat k in
            lo <= i < hi
            /\ table_index ctx = i
            /\ display_index ctx = i + 1
            /\ exists row, df_rows df !! Z.to_nat i = Some row
                           /\ ctx = _context_from_row row i (i + 1).
Proof.
  intros Hval n lo hi. split; [reflexivity|].
  unfold load_rows. rewrite Hval.
  change (slice_rows df (start_row options) (end_row options)) with (lo, hi).
  pose proof (slice_rows_within df (start_row options) (end_row options)) as Hin.
  change (slice_rows df (start_row options) (end_row options)) with (lo, hi) in Hin.
  simpl in Hin.
  destruct (build_contexts_total df _ Hin) as (cs & Hcs & Hlen & Hnth).
  rewrite Hcs. eexists _, _, _. split; [reflexivity|].
  unfold py_range in Hlen, Hnth. rewrite length_seqZ in Hlen.
  split; [done|].
  intros k ctx Hk. set (i := lo + Z.of_nat k).
  assert (Hklt : (k < Z.to_nat (hi - lo))%nat).
  { rewrite <- Hlen. by apply lookup_lt_Some in Hk. }
  assert (Hseq : seqZ lo (hi - lo) !! k = Some i).
  { apply lookup_seqZ. split; [reflexivity|lia]. }
  destruct (Hnth k i Hseq) as (row & Hrow & Hctx).
  rewrite Hk in Hctx. inversion Hctx; subst ctx.
  split; [unfold i; lia|]. repeat split. by exists row.
Qed.

(** ** The retry helper (utils.py, [with_retry]) *)

Section RetryFacts.

Context {St V : Type}.
Variable fn : St -> outcome V * St.
Variable attempts : Z.

Lemma nth_call_S n st : nth_call fn (S n) st = nth_call fn n (snd (fn st)).
Proof. reflexivity. Qed.

Lemma after_calls_S n st : after_calls fn (S n) st = after_calls fn n (snd (fn st)).
Proof. reflexivity. Qed.

(** The loop, entered at iteration [i] with enough iterations left, when
    the next [n] calls raise and the one after returns [v]. *)
Lemma retry_loop_returns (n : nat) : forall fuel i k last_exc st tr v,
  (n < fuel)%nat ->
  i + Z.of_nat n < attempts ->
  (forall j, (j < n)%nat -> exists e, nth_call fn j st = Raised e) ->
  nth_call fn n st = Returned v ->
  retry_loop fn attempts fuel i k last_exc st tr
  = (RetValue v, after_calls fn (S n) st, tr ++ failed_attempts k n ++ [Called]).
Proof.
  induction n as [|n IH]; intros fuel i k last_exc st tr v Hfuel Hi Hfail Hok.
  - destruct fuel as [|fuel]; [lia|]. simpl.
    unfold nth_call in Hok. simpl in Hok.
    destruct (fn st) as [o st'] eqn:Hfn. simpl in Hok. subst o. reflexivity.
  - destruct fuel as [|fuel]; [lia|]. cbn [retry_loop].
    destruct (Hfail 0%nat ltac:(lia)) as [e He].
    unfold nth_call in He. simpl in He.
    destruct (fn st) as [o st'] eqn:Hfn. simpl in He. subst o.
    assert (Hne : (i =? attempts - 1) = false) by (apply Z.eqb_neq; lia).
    rewrite Hne.
    rewrite (IH fuel (i + 1) (S k) (Some e) st' (tr ++ [Called; Slept k]) v).
    + rewrite (after_calls_S (S n) st), Hfn. simpl. by rewrite <- app_assoc.
    + lia.
    + lia.
    + intros j Hj. specialize (Hfail (S j) ltac:(lia)).
      by rewrite nth_call_S, Hfn in Hfail.
    + by rewrite nth_call_S, Hfn in Hok.
Qed.

(** The loop, entered at iteration [i] with exactly the iterations up to
    [attempts] left, when every call raises. *)
Lemma retry_loop_exhausts (n : nat) : forall fuel i k last_exc st tr e,
  fuel = S n ->
  i + Z.of_nat n = attempts - 1 ->
  (forall j, (j <= n)%nat -> exists e', nth_call fn j st = Raised e') ->
  nth_call fn n st = Raised e ->
  retry_loop fn attempts fuel i k last_exc st tr
  = (RetRaise e, after_calls fn (S n) st, tr ++ failed_attempts k n ++ [Called]).
Proof.
  induction n as [|n IH]; intros fuel i k last_exc st tr e -> Hi Hfail Hlast.
  - simpl. unfold nth_call in Hlast. simpl in Hlast.
    destruct (fn st) as [o st'] eqn:Hfn. simpl in Hlast. subst o.
    assert (Heq : (i =? attempts - 1) = true) by (apply Z.eqb_eq; lia).
    by rewrite Heq.
  - remember (S n) as fuel eqn:Hfuel. cbn [retry_loop].
    destruct (Hfail 0%nat ltac:(lia)) as [e0 He0].
    unfold nth_call in He0. simpl in He0.
    destruct (fn st) as [o st'] eqn:Hfn. simpl in He0. subst o.
    assert (Hne : (i =? attempts - 1) = false) by (apply Z.eqb_neq; lia).
    rewrite Hne.
    rewrite (IH fuel (i + 1) (S k) (Some e0) st' (tr ++ [Called; Slept k]) e).
    + rewrite (after_calls_S fuel st), Hfn. subst fuel. simpl. by rewrite <- app_assoc.
    + done.
    + lia.
    + intros j Hj. specialize (Hfail (S j) ltac:(lia)).
      by rewrite nth_call_S, Hfn in Hfail.
    + subst fuel. by rewrite nth_call_S, Hfn in Hlast.
Qed.

Lemma calls_failed_attempts k n :
  calls (failed_attempts k n ++ [Called]) = S n.
Proof.
  revert k. induction n as [|n IH]; intros k; [reflexivity|].
  specialize (IH (S k)). unfold calls in *.
  change (failed_attempts k (S n)) with (Called :: Slept k :: failed_attempts (S k) n).
  rewrite <- !app_comm_cons, !filter_cons.
  repeat case_decide; try done. simpl. by rewrite IH.
Qed.

End RetryFacts.

(** C7. [with_retry] returns the operation's result as soon as one attempt
    succeeds: if the first [n] calls raise and call [n], still within the
    budget, returns [v], the helper returns [v] after [n + 1] calls.  When
    every one of the [attempts] calls raises, it raises the exception of
    the final call, after exactly [attempts] calls. *)
Theorem with_retry_first_success_or_last_failure
    {St V : Type} (fn : St -> outcome V * St) (attempts : Z) (st : St) (n : nat) :
  (forall j, (j < n)%nat -> exists e, nth_call fn j st = Raised e) ->
  (forall v, Z.of_nat n < attempts ->
     nth_call fn n st = Returned v ->
     exists tr, with_retry fn attempts st = (RetValue v, after_calls fn (S n) st, tr)
                /\ calls tr = S n)
  /\ (forall e, Z.of_nat n = attempts - 1 ->
        nth_call fn n st = Raised e ->
        exists tr, with_retry fn attempts st = (RetRaise e, after_calls fn (S n) st, tr)
                   /\ Z.of_nat (calls tr) = attempts).
Proof.
  intros Hfail. split.
  - intros v Hn Hok. exists ([] ++ failed_attempts 0 n ++ [Called]). split.
    + unfold with_retry. apply retry_loop_returns; try done; lia.
    + simpl. apply calls_failed_attempts.
  - intros e Hn Hlast. exists ([] ++ failed_attempts 0 n ++ [Called]). split.
    + unfold with_retry.
      replace (Z.to_nat attempts) with (S n) by lia.
      apply retry_loop_exhausts; try done; try lia.
      intros j Hj. destruct (decide (j = n)) as [->|Hne]; [by exists e|].
      apply Hfail. lia.
    + simpl. rewrite calls_failed_attempts. lia.
Qed.

(** C10. With a budget of zero or less, [with_retry] returns [None]: [fn]
    is never called (the trace is empty and the world unchanged) and no
    exception is raised. *)
Theorem with_retry_no_budget
    {St V : Type} (fn : St -> outcome V * St) (attempts : Z) (st : St) :
  attempts <= 0 ->
  with_retry fn attempts st = (RetNone, st, []).
Proof.
  intros H. unfold with_retry.
  replace (Z.to_nat attempts) with 0%nat by lia. reflexivity.
Qed.

(** ** Resume (resume.py, [load_resume_entries]) *)

Section Decimal.

Lemma digit_char_parses c d :
  is_digit c = true -> exists d', uint_of_char c (Some d) = Some d'.
Proof.
  destruct c as [[|] [|] [|] [|] [|] [|] [|] [|]];
    vm_compute; intros H; try discriminate H; eauto.
Qed.

Lemma digits_parse s :
  str_forall is_digit s = true -> exists d, NilEmpty.uint_of_string s = Some d.
Proof.
  induction s as [|c r IH]; simpl; intros H; [eauto|].
  apply andb_true_iff in H as [Hc Hr].
  destruct (IH Hr) as [d Hd]. rewrite Hd. by apply digit_char_parses.
Qed.

(** [int] never fails on a string that passed [isdigit]. *)
Lemma isdigit_int_of_str s :
  isdigit s = true -> exists n, int_of_str s = Some n /\ 0 <= n.
Proof.
  intros H. destruct s as [|c r]; [discriminate|].
  destruct (digits_parse (String c r) H) as [d Hd].
  unfold int_of_str, NilZero.uint_of_string. rewrite Hd. simpl.
  exists (Z.of_uint d). split; [done|]. unfold Z.of_uint. lia.
Qed.

Lemma string_of_uint_digits d :
  str_forall is_digit (NilEmpty.string_of_uint d) = true.
Proof. induction d; simpl; auto. Qed.

Lemma nilzero_digits d : isdigit (NilZero.string_of_uint d) = true.
Proof.
  destruct d; try reflexivity;
    unfold NilZero.string_of_uint; simpl; apply string_of_uint_digits.
Qed.

Lemma str_of_int_isdigit n : 0 <= n -> isdigit (str_of_int n) = true.
Proof.
  intros H. unfold str_of_int. destruct n as [|p|p]; [reflexivity| |lia].
  simpl. apply nilzero_digits.
Qed.

Lemma int_of_str_of_int n : 0 <= n -> int_of_str (str_of_int n) = Some n.
Proof.
  intros H. unfold str_of_int, int_of_str.
  destruct n as [|p|p]; [reflexivity| |lia].
  simpl. rewrite NilZero.usu.
  - simpl. unfold Z.of_uint. by rewrite DecimalPos.Unsigned.of_to.
  - apply DecimalPos.Unsigned.to_uint_nonnil.
Qed.

End Decimal.

Section LastWins.

Context {A B : Type}.
Variable key : A -> option Z.
Variable val : A -> B.

(** Inserting the items of a list in order leaves, under each key, the
    last item that has it. *)
Lemma foldl_put_lookup (l : list A) (acc : gmap Z B) (idx : Z) :
  foldl (put key val) acc l !! idx
  = match last (filter (fun a => key a = Some idx) l) with
    | Some a => Some (val a)
    | None => acc !! idx
    end.
Proof.
  induction l as [|a l IH] using rev_ind; [reflexivity|].
  rewrite foldl_app, filter_app. simpl. unfold put at 1.
  rewrite filter_cons, filter_nil.
  destruct (key a) as [i|] eqn:Hk.
  - destruct (decide (i = idx)) as [->|Hne].
    + rewrite lookup_insert_eq. rewrite decide_True by done. by rewrite last_snoc.
    + rewrite lookup_insert_ne by done. rewrite decide_False by congruence.
      by rewrite app_nil_r.
  - rewrite decide_False by congruence. by rewrite app_nil_r.
Qed.

End LastWins.

Section ResumeFacts.

(** On a CSV none of whose lines is cut short, the comprehension does not
    raise: it keeps, under each index, the last line that carries it. *)
Lemma read_entries_complete (rows : list csv_row) (acc : gmap Z csv_row) :
  Forall complete_line rows ->
  read_entries rows acc = inr (foldl (put line_index id) acc rows).
Proof.
  revert acc. induction rows as [|row rest IH]; intros acc Hall; [reflexivity|].
  apply Forall_cons in Hall as [Hrow Hrest]. simpl.
  unfold put at 2, line_index. unfold complete_line in Hrow.
  destruct (csv_get row "row_index" (Some "")) as [text|]; [|done].
  destruct (isdigit text) eqn:Hd; [|by apply IH].
  destruct (isdigit_int_of_str _ Hd) as (n & Hn & _). rewrite Hn. by apply IH.
Qed.

(** A line cut short before the [row_index] column ends the read with an
    exception, whatever comes before or after it. *)
Lemma read_entries_short_line (before after : list csv_row) (row : csv_row)
    (acc : gmap Z csv_row) :
  Forall complete_line before ->
  csv_get row "row_index" (Some "") = None ->
  exists exc, read_entries (before ++ row :: after) acc = inl exc.
Proof.
  revert acc. induction before as [|b before IH]; intros acc Hall Hrow; simpl.
  - rewrite Hrow. eauto.
  - apply Forall_cons in Hall as [Hb Hall]. unfold complete_line in Hb.
    destruct (csv_get b "row_index" (Some "")) as [text|]; [|done].
    destruct (isdigit text) eqn:Hd; [|by apply IH].
    destruct (isdigit_int_of_str _ Hd) as (n & Hn & _). rewrite Hn. by apply IH.
Qed.

(** What [load_resume_entries] holds under an index, for a CSV none of
    whose lines is cut short. *)
Lemma load_resume_complete (rows : list csv_row) (start_display end_display idx : Z)
    (row : csv_row) :
  Forall complete_line rows ->
  load_resume_entries (CsvRows rows) start_display end_display !! idx = Some row
  <-> last_line_of idx rows = Some row
      /\ start_display <= idx <= end_display
      /\ row_level row = "OK".
Proof.
  intros Hall. unfold load_resume_entries.
  rewrite (read_entries_complete rows ∅ Hall).
  rewrite map_lookup_filter_Some, foldl_put_lookup, lookup_empty. simpl.
  unfold last_line_of, eligible_level, RESUME_ELIGIBLE_LEVELS.
  rewrite bool_decide_eq_true, list_elem_of_singleton.
  destruct (last _) as [r|]; split.
  - intros ([= ->] & Hr & Hl). repeat split; [lia|lia|done].
  - intros ([= ->] & Hr & Hl). repeat split; [lia|done].
  - intros (? & _); done.
  - intros (? & _); done.
Qed.

(** A line whose [row_index] field is a text that is not a string of
    digits changes nothing. *)
Lemma load_resume_ignores_non_digit (before after : list csv_row) (row : csv_row)
    (text : string) (start_display end_display : Z) :
  csv_get row "row_index" (Some "") = Some text ->
  isdigit text = false ->
  load_resume_entries (CsvRows (before ++ row :: after)) start_display end_display
  = load_resume_entries (CsvRows (before ++ after)) start_display end_display.
Proof.
  intros Hget Hd. unfold load_resume_entries.
  assert (H : forall acc, read_entries (before ++ row :: after) acc
                          = read_entries (before ++ after) acc).
  { induction before as [|b before IH]; intros acc; simpl.
    - by rewrite Hget, Hd.
    - destruct (csv_get b "row_index" (Some "")) as [t|]; [|done].
      destruct (isdigit t); [|by apply IH].
      destruct (int_of_str t); [by apply IH|done]. }
  by rewrite H.
Qed.

End ResumeFacts.

Section SavedLogs.

Lemma event_row_index_field ev :
  csv_get (csv_row_of_event ev) "row_index" (Some "")
  = Some (str_of_int (ev_row_index ev)).
Proof. reflexivity. Qed.

Lemma event_level_field ev :
  csv_get (csv_row_of_event ev) "level" None = Some (level_text (ev_level ev)).
Proof. reflexivity. Qed.

Lemma event_line_complete ev : complete_line (csv_row_of_event ev).
Proof. unfold complete_line. by rewrite event_row_index_field. Qed.

Lemma event_line_index ev :
  0 <= ev_row_index ev -> line_index (csv_row_of_event ev) = Some (ev_row_index ev).
Proof.
  intros H. unfold line_index. rewrite event_row_index_field.
  rewrite (str_of_int_isdigit _ H). by apply int_of_str_of_int.
Qed.

Lemma event_row_level ev :
  row_level (csv_row_of_event ev) = "OK" <-> ev_level ev = OK.
Proof.
  unfold row_level. rewrite event_level_field.
  destruct (ev_level ev); vm_compute; split; congruence.
Qed.

Lemma last_line_of_events idx (events : list LogEvent) :
  Forall (fun ev => 0 <= ev_row_index ev) events ->
  last_line_of idx (map csv_row_of_event events)
  = csv_row_of_event <$> last_event_of idx events.
Proof.
  unfold last_line_of, last_event_of.
  induction events as [|ev events IH] using rev_ind; intros Hall; [reflexivity|].
  apply Forall_app in Hall as [Hall Hev]. rewrite Forall_singleton in Hev.
  rewrite map_app, !filter_app. simpl. rewrite !filter_cons, !filter_nil.
  rewrite (event_line_index _ Hev).
  destruct (decide (ev_row_index ev = idx)) as [Heq|Hne].
  - rewrite decide_True by congruence. by rewrite !last_snoc.
  - rewrite decide_False by congruence. rewrite !app_nil_r. by apply IH.
Qed.

Lemma event_lines_complete (events : list LogEvent) :
  Forall complete_line (map csv_row_of_event events).
Proof.
  induction events as [|ev events IH]; simpl; constructor; [|done].
  apply event_line_complete.
Qed.

(** An empty book writes no file, which reads like a file without lines. *)
Lemma saved_log_lines (events : list LogEvent) (start_display end_display : Z) :
  load_resume_entries (saved_log (book_of events)) start_display end_display
  = load_resume_entries (CsvRows (map csv_row_of_event events)) start_display end_display.
Proof.
  destruct events as [|ev events]; [|reflexivity].
  simpl. by rewrite map_filter_empty.
Qed.

End SavedLogs.

(** C1. For the log a prior run saved (display indices are not negative),
    [load_resume_entries] selects exactly the display indices that lie in
    [start_display, end_display] and whose recorded level, that of their
    last event, is OK, and keeps that event's line for each.  For the log
    with lines 1:OK, 2:ERROR, 5:OK and the range [1, 3], the indices
    selected are exactly {1}. *)
Theorem load_resume_entries_range_and_ok
    (events : list LogEvent) (start_display end_display idx : Z) :
  Forall (fun ev => 0 <= ev_row_index ev) events ->
  (forall row,
     load_resume_entries (saved_log (book_of events)) start_display end_display !! idx
       = Some row
     <-> exists ev, last_event_of idx events = Some ev
                    /\ row = csv_row_of_event ev
                    /\ start_display <= idx <= end_display
                    /\ ev_level ev = OK)
  /\ dom (load_resume_entries (CsvRows test_log) 1 3) = {[ 1 ]}.
Proof.
  intros Hall. split; [|by vm_compute].
  intros row. rewrite saved_log_lines.
  rewrite (load_resume_complete _ _ _ _ _ (event_lines_complete events)).
  rewrite (last_line_of_events idx events Hall).
  split.
  - intros (Hlast & Hrange & Hlevel).
    destruct (last_event_of idx events) as [ev|]; [|done].
    simpl in Hlast. inversion Hlast; subst row.
    exists ev. repeat split; try done; try lia. by apply event_row_level.
  - intros (ev & -> & -> & Hrange & Hlevel). simpl.
    repeat split; try done; try lia. by apply event_row_level.
Qed.

(** A line cut short before the [row_index] column empties the
    selection. *)
Lemma load_resume_short_line (before after : list csv_row) (row : csv_row)
    (start_display end_display : Z) :
  Forall complete_line before ->
  csv_get row "row_index" (Some "") = None ->
  load_resume_entries (CsvRows (before ++ row :: after)) start_display end_display = ∅.
Proof.
  intros Hall Hrow. unfold load_resume_entries.
  by destruct (read_entries_short_line before after row ∅ Hall Hrow) as [exc ->].
Qed.

(** C9, on a log whose second line is cut after its first field.  Row 1
    has a single event, at level OK, and lies in the range [1, 1]; the cut
    line carries no [row_index].  Read alone, the first line makes row 1
    eligible; with the cut line after it, nothing is eligible: the cut
    line is not ignored, and row 1 is not judged by its last event. *)
Theorem cut_line_empties_resume :
  load_resume_entries (CsvRows [full_line "20250101_080000" "1" "OK" "ROW_DONE"]) 1 1
    = {[ 1 := full_line "20250101_080000" "1" "OK" "ROW_DONE" ]}
  /\ line_index (cut_line "20250101_08") = None
  /\ last_line_of 1 cut_log = Some (full_line "20250101_080000" "1" "OK" "ROW_DONE")
  /\ load_resume_entries (CsvRows cut_log) 1 1 = ∅.
Proof. repeat split; by vm_compute. Qed.
(** ** The autofill loop (autofill.py, [process_autofill]) *)

Lemma new_events_app st st' evs :
  lb_events (logbook st') = lb_events (logbook st) ++ evs ->
  new_events st st' = evs.
Proof. intros H. unfold new_events. rewrite H. by rewrite drop_app_length. Qed.

Lemma new_actions_app st st' acts :
  actions st' = actions st ++ acts ->
  new_actions st st' = acts.
Proof. intros H. unfold new_actions. rewrite H. by rewrite drop_app_length. Qed.

Lemma new_events_none st st' :
  lb_events (logbook st') = lb_events (logbook st) -> new_events st st' = [].
Proof. intros H. unfold new_events. rewrite H. apply drop_all. Qed.

Lemma new_actions_none st st' :
  actions st' = actions st -> new_actions st st' = [].
Proof. intros H. unfold new_actions. rewrite H. apply drop_all. Qed.

(** Splits a part of the loop body into its paths. *)
Ltac split_paths :=
  repeat (case_match; simplify_eq; cbn [fst snd] in * ).

Ltac row_cases :=
  unfold process_row, resume_skip, click_failure, open_stage, form_stage,
    lock_stage, fill_stage, fill_handler, submit_stage, submit_handler,
    focus_list, screenshot, stop_or_next;
  split_paths.

(** Rewrites [new_events] of a row into the explicit list of its events. *)
Ltac explicit_events :=
  first [ erewrite new_events_app by (simpl; rewrite <- ?app_assoc; reflexivity)
        | rewrite new_events_none by reflexivity ];
  cbn [app].

Ltac decide_events :=
  unfold is_error;
  rewrite ?Exists_cons, ?Exists_nil, ?Forall_cons, ?Forall_nil; simpl;
  try (intuition (discriminate || congruence)).

(** Closes [row_step] for a path of the body that is written out: the
    events it logs are tried as OK events followed by ERROR events. *)
Ltac step_raise :=
  let exc := fresh "exc" in
  let Hr := fresh "Hr" in
  intros exc Hr; simplify_eq;
  unfold unguarded, open_raises;
  repeat match goal with
         | H : ui_open _ = _ |- _ => rewrite H
         end;
  rewrite !elem_of_cons; intuition congruence.

Ltac step_quiet :=
  let Hq := fresh "Hq" in
  intros Hq; first [ simpl; lia
                   | unfold quiet, unguarded, open_raises in Hq;
                     repeat (apply Forall_cons in Hq as [? Hq]); congruence ].

Ltac step_check :=
  split; [simpl; rewrite <- ?app_assoc, ?app_nil_r; reflexivity|];
  split; [repeat constructor; unfold is_error; simpl; congruence|];
  split; [repeat constructor; unfold is_error; simpl; congruence|];
  split; [simpl; lia|];
  split; [cbn [fst snd]; intuition (discriminate || congruence)|];
  split; [cbn [fst snd]; step_raise|];
  step_quiet.

Ltac step_done :=
  first [ solve [eexists (@nil LogEvent), (@nil LogEvent); step_check]
        | solve [eexists (@nil LogEvent), [_]; step_check]
        | solve [eexists (@nil LogEvent), [_; _]; step_check]
        | solve [eexists [_], (@nil LogEvent); step_check]
        | solve [eexists [_], [_]; step_check]
        | solve [eexists [_], [_; _]; step_check]
        | solve [eexists [_; _], (@nil LogEvent); step_check]
        | solve [eexists [_; _], [_]; step_check]
        | solve [eexists [_; _], [_; _]; step_check] ].

(** ** The parts of the loop body *)

Section Steps.

Variable options : AutofillOptions.
Variable world : World.
Variable ctx : RowContext.
Variable ui : RowUI.

(** What was logged before a part of the body is entered. *)
Lemma row_step_prefix st st1 r pre :
  lb_events (logbook st1) = lb_events (logbook st) ++ pre ->
  Forall (fun ev => ~ is_error ev /\ ev_row_index ev = display_index ctx) pre ->
  row_step options ui (display_index ctx) st1 r -> row_step options ui (display_index ctx) st r.
Proof.
  intros Hpre Hok (oks & errs & Hev & Hoks & Herrs & Hlen & Hbreak & Hraise & Hq).
  exists (pre ++ oks), errs. rewrite Hev, Hpre.
  split; [by rewrite <- !app_assoc|]. split; [by apply Forall_app|].
  exact (conj Herrs (conj Hlen (conj Hbreak (conj Hraise Hq)))).
Qed.

Lemma row_step_same st st1 r :
  lb_events (logbook st1) = lb_events (logbook st) ->
  row_step options ui (display_index ctx) st1 r -> row_step options ui (display_index ctx) st r.
Proof.
  intros Hsame. apply (row_step_prefix st st1 r []); [by rewrite app_nil_r|constructor].
Qed.

(** Goes on with the part of the body that a path enters: [tac] proves
    [row_step] for it. *)
Ltac step_into tac :=
  first [ eapply row_step_same; [|tac]; reflexivity
        | eapply row_step_prefix; [| |tac];
          [ simpl; rewrite <- ?app_assoc; reflexivity
          | repeat constructor; unfold is_error; simpl; congruence ] ].

Lemma submit_stage_step match_value k st :
  (k <= 1)%nat ->
  row_step options ui (display_index ctx) st (submit_stage options world ctx ui match_value k st).
Proof.
  intros Hk. destruct k as [|[|k]]; [| |lia];
    unfold submit_stage, submit_handler, focus_list, screenshot, stop_or_next;
    split_paths; step_done.
Qed.

Lemma fill_stage_step match_value k st :
  (k <= 1)%nat ->
  row_step options ui (display_index ctx) st (fill_stage options world ctx ui match_value k st).
Proof.
  intros Hk. pose proof (fun st' => submit_stage_step match_value k st' Hk) as Hsub.
  destruct k as [|[|k]]; [| |lia];
    unfold fill_stage, fill_handler, focus_list, screenshot, stop_or_next;
    split_paths;
    lazymatch goal with
    | |- row_step _ _ _ _ (submit_stage _ _ _ _ _ _ _) => step_into ltac:(apply Hsub)
    | |- _ => step_done
    end.
Qed.

Lemma lock_stage_step match_value form k st :
  (k <= 1)%nat ->
  row_step options ui (display_index ctx) st (lock_stage options world ctx ui match_value form k st).
Proof.
  intros Hk. pose proof (fun st' => fill_stage_step match_value k st' Hk) as Hfill.
  destruct k as [|[|k]]; [| |lia];
    unfold lock_stage, screenshot;
    split_paths;
    lazymatch goal with
    | |- row_step _ _ _ _ (fill_stage _ _ _ _ _ _ _) => step_into ltac:(apply Hfill)
    | |- _ => step_done
    end.
Qed.

Lemma form_stage_step match_value note form st :
  row_step options ui (display_index ctx) st (form_stage options world ctx ui match_value note form st).
Proof.
  pose proof (fun k st' H => lock_stage_step match_value form k st' H) as Hlock.
  unfold form_stage; split_paths;
    lazymatch goal with
    | |- row_step _ _ _ _ (lock_stage _ _ _ _ _ _ _ _) =>
        step_into ltac:(apply Hlock; lia)
    | |- _ => step_done
    end.
Qed.

Lemma open_stage_step match_value st :
  row_step options ui (display_index ctx) st (open_stage options world ctx ui match_value st).
Proof.
  pose proof (form_stage_step match_value) as Hform.
  unfold open_stage, screenshot, stop_or_next; split_paths;
    lazymatch goal with
    | |- row_step _ _ _ _ (form_stage _ _ _ _ _ _ _ _) => step_into ltac:(apply Hform)
    | |- _ => step_done
    end.
Qed.

End Steps.

Section RowFacts.

Variable options : AutofillOptions.
Variable world : World.

(** The body of the loop as a whole. *)
Lemma process_row_step ctx st :
  row_step options (w_ui world ctx) (display_index ctx) st
    (process_row options world ctx st).
Proof.
  pose proof (open_stage_step options world ctx (w_ui world ctx)) as Hopen.
  unfold process_row, resume_skip, click_failure, screenshot, stop_or_next;
    split_paths;
    lazymatch goal with
    | |- row_step _ _ _ _ (open_stage _ _ _ _ _ _) =>
        eapply row_step_same; [|apply Hopen]; reflexivity
    | |- _ => step_done
    end.
Qed.


(** Every event of a row is for that row. *)
Lemma process_row_own_events ctx st :
  Forall (fun ev => ev_row_index ev = display_index ctx)
         (new_events st (process_row options world ctx st).1).
Proof.
  destruct (process_row_step ctx st) as (oks & errs & Hev & Hoks & Herrs & _).
  rewrite (new_events_app _ _ _ Hev). apply Forall_app. split.
  - eapply Forall_impl; [exact Hoks|]. by intros ev [_ ?].
  - eapply Forall_impl; [exact Herrs|]. by intros ev [_ ?].
Qed.











End RowFacts.



(** ** Dry-run *)

Section DryRun.

Variable options : AutofillOptions.
Variable world : World.
Hypothesis Hdry : dry_run options = true.

Lemma search_not_touching text : ~ touches_form (ActSearch text).
Proof. unfold touches_form. intuition discriminate. Qed.

Lemma clear_filter_not_touching p : Forall (fun a => ~ touches_form a) (clear_filter p).
Proof.
  unfold clear_filter. destruct (tp_used_filter p); repeat constructor.
  apply search_not_touching.
Qed.

(** Without [perform_click], the candidates are searched but no edit
    control is clicked. *)
Lemma try_candidates_no_click probe_of candidates :
  Forall (fun a => ~ touches_form a) (try_candidates probe_of false candidates).2.
Proof.
  induction candidates as [|c rest IH]; simpl; [constructor|].
  destruct (try_candidates probe_of false rest) as [r more]. simpl in IH.
  repeat case_match; simpl;
    repeat (apply Forall_cons; split; [apply search_not_touching|]);
    try apply Forall_app; try split;
    try apply clear_filter_not_touching; try done.
Qed.

Lemma click_edit_by_index_no_click table_wait p index0 :
  (click_edit_by_index table_wait p index0 false).2 = [].
Proof. unfold click_edit_by_index. by repeat case_match. Qed.

Lemma click_edit_by_text_no_click integer_form table_wait probe_of text :
  Forall (fun a => ~ touches_form a)
         (click_edit_by_text integer_form table_wait probe_of text false).2.
Proof.
  unfold click_edit_by_text.
  destruct (String.eqb (strip text) ""); [constructor|].
  destruct table_wait; [constructor|].
  pose proof (try_candidates_no_click probe_of
                (_text_variants integer_form (strip text))) as Hc.
  by destruct (try_candidates _ _ _).
Qed.

Lemma click_edit_dry ctx ui match_value :
  Forall (fun a => ~ touches_form a) (click_edit options world ctx ui match_value).2.
Proof.
  unfold click_edit. rewrite Hdry. simpl.
  destruct (String.eqb (match_by options) "index").
  { rewrite click_edit_by_index_no_click. constructor. }
  destruct (String.eqb (match_by options) "idsbr");
    [apply click_edit_by_text_no_click|].
  destruct (String.eqb (match_by options) "name");
    [apply click_edit_by_text_no_click|constructor].
Qed.

(** In dry-run a row only searches the table and takes screenshots. *)
Lemma process_row_dry_actions ctx st :
  exists acts,
    actions (process_row options world ctx st).1 = actions st ++ acts
    /\ Forall (fun a => ~ touches_form a) acts.
Proof.
  pose proof (click_edit_dry ctx (w_ui world ctx)
                (_format_match_value ctx (match_by options))) as Hc.
  unfold process_row, resume_skip, click_failure, screenshot, stop_or_next.
  rewrite Hdry.
  destruct (click_edit options world ctx (w_ui world ctx)
              (_format_match_value ctx (match_by options))) as [answer acts].
  simpl in Hc.
  repeat (case_match; simplify_eq; cbn [fst snd] in * ); simpl;
    rewrite <- ?app_assoc;
    first [ eexists; split; [reflexivity|]
          | exists []; split; [by rewrite app_nil_r|] ];
    try apply Forall_app; try split; try done;
    repeat constructor; unfold touches_form; intuition discriminate.
Qed.

Lemma run_rows_dry_actions contexts st :
  exists acts,
    actions (run_rows options world contexts st) = actions st ++ acts
    /\ Forall (fun a => ~ touches_form a) acts.
Proof.
  unfold run_rows. revert st.
  induction contexts as [|ctx rest IH]; intros st; simpl.
  - exists []. by rewrite app_nil_r.
  - destruct (process_row_dry_actions ctx st) as (acts1 & H1 & Hf1).
    destruct (process_row options world ctx st) as [st' fl]. simpl in H1.
    destruct fl; [|by exists acts1|by exists acts1].
    destruct (IH st') as (acts2 & H2 & Hf2).
    exists (acts1 ++ acts2). rewrite H2, H1, app_assoc. split; [done|].
    by apply Forall_app.
Qed.

(** What a row does in dry-run, by the three ways it can go. *)
Lemma process_row_dry ctx st :
  let r := process_row options world ctx st in
  exists ev,
    new_events st r.1 = [ev]
    /\ ev_row_index ev = display_index ctx
    /\ ((is_Some (resumed options ctx st)
         /\ ev_stage ev = "RESUME_SKIP" /\ ev_level ev = OK
         /\ counts r.1 = (ok_rows st, error_rows st, skipped_rows st + 1)
         /\ r.2 = Next)
        \/ (resumed options ctx st = None
            /\ click_answer options world ctx <> inr true
            /\ ev_stage ev = "CLICK_EDIT" /\ ev_level ev = ERROR
            /\ counts r.1 = (ok_rows st, error_rows st + 1, skipped_rows st)
            /\ resume_entries r.1 = resume_entries st)
        \/ (resumed options ctx st = None
            /\ click_answer options world ctx = inr true
            /\ ev_stage ev = "DRY_RUN" /\ ev_level ev = OK
            /\ counts r.1 = (ok_rows st + 1, error_rows st, skipped_rows st)
            /\ resume_entries r.1 = resume_entries st
            /\ r.2 = Next)).
Proof.
  unfold resumed, click_answer, counts.
  unfold process_row, resume_skip, click_failure, screenshot, stop_or_next.
  rewrite Hdry.
  repeat (case_match; simplify_eq; cbn [fst snd] in * );
    explicit_events; simpl; eexists; (split; [reflexivity|]); (split; [reflexivity|]);
    simpl;
    first [ solve [left; repeat split; eauto]
          | solve [right; left; repeat split; done]
          | solve [right; right; repeat split; done] ].
Qed.

(** Two rows that resume does not skip and whose edit controls are both
    found count as two successes. *)
Lemma dry_run_two_rows c1 c2 has_flag entries :
  let st0 := initial_state has_flag entries in
  resumed options c1 st0 = None ->
  resumed options c2 st0 = None ->
  click_answer options world c1 = inr true ->
  click_answer options world c2 = inr true ->
  counts (run_rows options world [c1; c2] st0) = (2, 0, 0).
Proof.
  intros st0 Hr1 Hr2 Hc1 Hc2. unfold run_rows. simpl.
  destruct (process_row_dry c1 st0) as (ev1 & _ & _ & [H|[H|H]]).
  { destruct H as ([? Hs] & _). congruence. }
  { by destruct H as (_ & Hne & _). }
  destruct H as (_ & _ & _ & _ & Hcount1 & Hent1 & Hnext1).
  destruct (process_row options world c1 st0) as [st1 f1]. simpl in *. subst f1.
  assert (Hr2' : resumed options c2 st1 = None).
  { unfold resumed in *. by rewrite Hent1. }
  destruct (process_row_dry c2 st1) as (ev2 & _ & _ & [H|[H|H]]).
  { destruct H as ([? Hs] & _). congruence. }
  { by destruct H as (_ & Hne & _). }
  destruct H as (_ & _ & _ & _ & Hcount2 & _ & Hnext2).
  destruct (process_row options world c2 st1) as [st2 f2]. simpl in *. subst f2.
  simpl. rewrite Hcount2. unfold counts in Hcount1.
  injection Hcount1 as Ha Hb Hc. rewrite Ha, Hb, Hc. reflexivity.
Qed.

End DryRun.

(** C3, as the code has it.  In a run with [dry_run] set, every row the
    loop reaches logs exactly one event: RESUME_SKIP at level OK, counted
    as skipped, when resume skips the row; otherwise either CLICK_EDIT at
    level ERROR, counted as an error, when the edit control is not
    detected, or DRY_RUN at level OK, counted as ok.  No row ever clicks an
    edit control or opens, fills or submits a form.  Two rows that resume
    does not skip and whose edit controls are both found yield the counts
    ok 2, error 0, skip 0. *)
Theorem dry_run_only_verifies (options : AutofillOptions) (world : World) :
  dry_run options = true ->
  (forall ctx st,
     let r := process_row options world ctx st in
     exists ev,
       new_events st r.1 = [ev]
       /\ ev_row_index ev = display_index ctx
       /\ ((is_Some (resumed options ctx st)
            /\ ev_stage ev = "RESUME_SKIP" /\ ev_level ev = OK
            /\ counts r.1 = (ok_rows st, error_rows st, skipped_rows st + 1)
            /\ r.2 = Next)
           \/ (resumed options ctx st = None
               /\ click_answer options world ctx <> inr true
               /\ ev_stage ev = "CLICK_EDIT" /\ ev_level ev = ERROR
               /\ counts r.1 = (ok_rows st, error_rows st + 1, skipped_rows st))
           \/ (resumed options ctx st = None
               /\ click_answer options world ctx = inr true
               /\ ev_stage ev = "DRY_RUN" /\ ev_level ev = OK
               /\ counts r.1 = (ok_rows st + 1, error_rows st, skipped_rows st)
               /\ r.2 = Next)))
  /\ (forall contexts st,
        Forall (fun a => ~ touches_form a)
               (new_actions st (run_rows options world contexts st)))
  /\ (forall c1 c2 has_flag entries,
        let st0 := initial_state has_flag entries in
        resumed options c1 st0 = None ->
        resumed options c2 st0 = None ->
        click_answer options world c1 = inr true ->
        click_answer options world c2 = inr true ->
        counts (run_rows options world [c1; c2] st0) = (2, 0, 0)).
Proof.
  intros Hdry. split; [|split].
  - intros ctx st r.
    destruct (process_row_dry options world Hdry ctx st) as (ev & He & Hi & H).
    exists ev. split; [done|]. split; [done|].
    destruct H as [H|[H|H]]; [by left| |].
    + right; left. by destruct H as (? & ? & ? & ? & ? & _).
    + right; right. by destruct H as (? & ? & ? & ? & ? & _ & ?).
  - intros contexts st.
    destruct (run_rows_dry_actions options world Hdry contexts st) as (acts & Ha & Hf).
    by rewrite (new_actions_app _ _ _ Ha).
  - intros c1 c2 has_flag entries. by apply dry_run_two_rows.
Qed.

(** C3 as stated fails when [resume] is set as well: here are two rows,
    both with their edit control in place, in a dry-run that resumes from
    a log in which both ended at OK.  Neither row logs DRY_RUN or fails at
    the click step; both log RESUME_SKIP, and the counts are ok 0,
    error 0, skip 2. *)
Lemma dry_run_resume_skips_both_rows :
  let options := options_with false true true in
  let world := world_of (fun _ => ui_with open_page) in
  click_answer options world row1 = inr true
  /\ click_answer options world row2 = inr true
  /\ exists stats st,
       process_autofill options false sample_df (CsvRows both_done) None world
         = inr (stats, st)
       /\ (success_count stats, error_count stats, skip_count stats) = (0, 0, 2)
       /\ map ev_stage (lb_events (logbook st)) = ["RESUME_SKIP"; "RESUME_SKIP"].
Proof.
  split; [by vm_compute|]. split; [by vm_compute|].
  eexists _, _. split; [vm_compute; reflexivity|]. split; reflexivity.
Qed.

(** ** Finalized forms *)

(** [is_finalized_form] holds exactly when the Cancel Submit control is
    seen and neither Submit Final control is. *)
Lemma is_finalized_form_iff (page : FormPage) :
  is_finalized_form page = true
  <-> cancel_submit page = Visible
      /\ submit_final_role page <> Visible
      /\ submit_final_text page <> Visible.
Proof.
  unfold is_finalized_form.
  destruct (cancel_submit page), (submit_final_role page), (submit_final_text page);
    simpl; intuition congruence.
Qed.

(** The fill and submit steps never count a row as skipped, and start
    by calling [fill_form]. *)
Lemma submit_stage_skipped options world ctx ui match_value k st :
  skipped_rows (submit_stage options world ctx ui match_value k st).1 = skipped_rows st
  /\ exists acts,
       actions (submit_stage options world ctx ui match_value k st).1
       = actions st ++ acts.
Proof.
  unfold submit_stage, submit_handler, focus_list, screenshot, stop_or_next;
    split_paths; (split; [reflexivity|]); simpl; rewrite <- ?app_assoc;
    eexists; reflexivity.
Qed.

Lemma fill_stage_skipped options world ctx ui match_value k st :
  skipped_rows (fill_stage options world ctx ui match_value k st).1 = skipped_rows st
  /\ exists acts,
       actions (fill_stage options world ctx ui match_value k st).1
       = actions st ++ ActFill :: acts.
Proof.
  unfold fill_stage, fill_handler, focus_list, screenshot, stop_or_next;
    split_paths;
    lazymatch goal with
    | |- context [submit_stage ?o ?w ?c ?u ?m ?k ?s] =>
        destruct (submit_stage_skipped o w c u m k s) as [Hs [acts Ha]];
        rewrite Hs, Ha; split; [reflexivity|]; simpl; rewrite <- ?app_assoc;
        eexists; reflexivity
    | |- _ =>
        split; [reflexivity|]; simpl; rewrite <- ?app_assoc; eexists; reflexivity
    end.
Qed.

Section Finalized.

Variable options : AutofillOptions.
Variable world : World.
Variable ctx : RowContext.
Variable st : RunState.
Variable page : FormPage.

Hypothesis Hres : resumed options ctx st = None.
Hypothesis Hclick : click_answer options world ctx = inr true.
Hypothesis Hdry : dry_run options = false.
Hypothesis Hpage : opened_form (w_ui world ctx) = Some page.
Hypothesis Hfocus : ui_focus_form (w_ui world ctx) = None.
Hypothesis Hfin : is_finalized_form page = true.

(** When the return to the list goes through, a finalized form is
    skipped: one FINAL_SKIP event at level OK, after at most the OK event
    of the opened tab; the row counted as skipped; the next row comes. *)
Lemma finalized_form_skipped_if_list_returns (rest : list RowContext) :
  ui_focus_list (w_ui world ctx) 0 = None ->
  let st' := (process_row options world ctx st).1 in
  (exists before ev,
     new_events st st' = before ++ [ev]
     /\ ev_stage ev = "FINAL_SKIP" /\ ev_level ev = OK
     /\ ev_row_index ev = display_index ctx
     /\ Forall (fun e => ev_stage e = "OPEN_TAB" /\ ev_level e = OK) before)
  /\ length (filter (fun e => ev_stage e = "FINAL_SKIP") (new_events st st')) = 1%nat
  /\ counts st' = (ok_rows st, error_rows st, skipped_rows st + 1)
  /\ run_loop options world (ctx :: rest) st = run_loop options world rest st'.
Proof.
  intros Hlist st'. subst st'.
  unfold resumed in Hres. unfold click_answer in Hclick. unfold opened_form in Hpage.
  cbn [run_loop].
  unfold process_row, open_stage, form_stage, screenshot.
  rewrite Hres, Hdry.
  destruct (click_edit options world ctx (w_ui world ctx)
              (_format_match_value ctx (match_by options))) as [answer acts].
  simpl in Hclick. subst answer.
  destruct (ui_open (w_ui world ctx)) as [exc|opened]; [done|].
  rewrite Hpage, Hfocus, Hfin, Hlist. cbn [fst snd].
  unfold counts.
  destruct (String.eqb (open_note opened) "");
    destruct (ui_confirm_edit (w_ui world ctx));
    explicit_events; simpl; (split; [|split; [|done]]).
  all: try by (exists []; eexists; repeat split; constructor).
  all: try by (eexists [_]; eexists; repeat split; repeat constructor).
  all: rewrite ?filter_cons, ?filter_nil; simpl; by repeat case_decide.
Qed.

(** When the return to the list raises, the handler around the finalized
    check swallows the exception after FINAL_SKIP has been logged: the row
    is not counted as skipped and, unless the lock check stops it,
    [fill_form] is called on the finalized form. *)
Lemma finalized_form_filled_if_return_raises (exc : exn) :
  ui_focus_list (w_ui world ctx) 0 = Some exc ->
  is_locked_page page = false ->
  let st' := (process_row options world ctx st).1 in
  skipped_rows st' = skipped_rows st
  /\ ActFill ∈ new_actions st st'
  /\ Exists (fun e => ev_stage e = "FINAL_SKIP") (new_events st st').
Proof.
  intros Hlist Hlock st'. subst st'.
  unfold resumed in Hres. unfold click_answer in Hclick. unfold opened_form in Hpage.
  unfold process_row, open_stage, form_stage, lock_stage, screenshot.
  rewrite Hres, Hdry.
  destruct (click_edit options world ctx (w_ui world ctx)
              (_format_match_value ctx (match_by options))) as [answer acts].
  simpl in Hclick. subst answer.
  destruct (ui_open (w_ui world ctx)) as [exc'|opened]; [done|].
  rewrite Hpage, Hfocus, Hfin, Hlist, Hlock. cbn [fst snd].
  match goal with
  | |- context [fill_stage ?o ?w ?c ?u ?m ?k ?s] =>
      pose proof (fill_stage_skipped o w c u m k s) as [Hs [more Ha]];
      pose proof (fill_stage_step o w c u m k s ltac:(lia))
        as (oks & errs & Hev & _);
      set (r := fill_stage o w c u m k s) in *
  end.
  split; [rewrite Hs;
          by destruct (String.eqb (open_note opened) ""),
                      (ui_confirm_edit (w_ui world ctx))|].
  split.
  - assert (Hacts : exists done,
              actions r.1 = actions st ++ done /\ ActFill ∈ done).
    { rewrite Ha.
      destruct (String.eqb (open_note opened) "");
        destruct (ui_confirm_edit (w_ui world ctx));
        simpl; rewrite <- ?app_assoc;
        (eexists; split; [reflexivity|set_solver]). }
    destruct Hacts as (done & Hacts & Hin).
    by rewrite (new_actions_app _ _ _ Hacts).
  - assert (Hevs : exists logged,
              lb_events (logbook r.1) = lb_events (logbook st) ++ logged
              /\ Exists (fun e => ev_stage e = "FINAL_SKIP") logged).
    { rewrite Hev.
      destruct (String.eqb (open_note opened) "");
        destruct (ui_confirm_edit (w_ui world ctx));
        simpl; rewrite <- ?app_assoc; cbn [app];
        (eexists; split; [reflexivity|]);
        first [ by constructor | by (constructor 2; constructor) ]. }
    destruct Hevs as (logged & Hevs & Hex).
    by rewrite (new_events_app _ _ _ Hevs).
Qed.

End Finalized.

(** C4 fails in the code when the form has opened in the tab of the list.
    Here [open_form_page] returns the list page itself; the form shows
    Cancel Submit and no Submit Final.  FINAL_SKIP is logged,
    [new_page.close()] closes the list page, and [page.bring_to_front()]
    raises; the handler around the finalized check swallows the exception,
    so the row is not counted as skipped and the loop does not go on with
    the next row: the body goes on to the lock check and calls [fill_form]
    on the finalized form, whose failure is logged as a FILL error; the row
    is counted as an error, and the next call of [page.bring_to_front()]
    ends the run with its exception (with [stop_on_error] set, the loop
    breaks instead). *)
Theorem finalized_form_filled_when_return_fails :
  let world := world_of (fun _ => ui_same_tab finalized_page) in
  let st0 := initial_state false ∅ in
  let r := process_row (options_with false false false) world row1 st0 in
  let r' := process_row (options_with true false false) world row1 st0 in
  is_finalized_form finalized_page = true
  /\ opened_form (ui_same_tab finalized_page) = Some finalized_page
  /\ map ev_stage (new_events st0 r.1) = ["OPEN_TAB"; "FINAL_SKIP"; "FILL"]
  /\ map ev_level (new_events st0 r.1) = [OK; OK; ERROR]
  /\ counts r.1 = (0, 1, 0)
  /\ ActFill ∈ actions r.1
  /\ r.2 = Raise target_closed
  /\ process_autofill (options_with false false false) false sample_df NoFile None world
     = inl target_closed
  /\ counts r'.1 = (0, 1, 0)
  /\ r'.2 = Break.
Proof.
  cbv zeta. split; [reflexivity|]. split; [reflexivity|].
  split; [by vm_compute|]. split; [by vm_compute|]. split; [by vm_compute|].
  split; [vm_compute; set_solver|]. split; [by vm_compute|].
  split; [by vm_compute|]. split; by vm_compute.
Qed.

(** ** The properties at concrete inputs *)

Lemma load_resume_entries_range_and_ok_witness :
  Forall (fun ev => 0 <= ev_row_index ev) saved_events
  /\ load_resume_entries (saved_log (book_of saved_events)) 1 3 !! 1
     = Some (csv_row_of_event (sample_event 1 OK "ROW_DONE"))
  /\ load_resume_entries (saved_log (book_of saved_events)) 1 3 !! 2 = None.
Proof.
  assert (H : Forall (fun ev => 0 <= ev_row_index ev) saved_events)
    by (repeat constructor; simpl; lia).
  split; [exact H|]. split.
  - apply (proj1 (load_resume_entries_range_and_ok saved_events 1 3 1 H)).
    exists (sample_event 1 OK "ROW_DONE").
    repeat split; first [lia | reflexivity | vm_compute; reflexivity].
  - destruct (load_resume_entries (saved_log (book_of saved_events)) 1 3 !! 2)
      as [row|] eqn:Hrow; [|reflexivity].
    apply (proj1 (load_resume_entries_range_and_ok saved_events 1 3 2 H)) in Hrow.
    destruct Hrow as (ev & Hlast & _ & _ & Hlevel).
    vm_compute in Hlast. inversion Hlast; subst ev. discriminate Hlevel.
Defined.

Lemma load_rows_slice_display_index_witness :
  _validate_columns sample_options sample_df = None
  /\ exists contexts,
       load_rows sample_options sample_df = inr (contexts, 2, 3)
       /\ map display_index contexts = [2; 3]
       /\ map table_index contexts = [1; 2].
Proof.
  assert (H : _validate_columns sample_options sample_df = None)
    by (vm_compute; reflexivity).
  split; [exact H|].
  destruct (load_rows_slice_display_index sample_options sample_df H)
    as (_ & contexts & sd & ed & Hload & Hlen & Hnth).
  assert (Hc : load_rows sample_options sample_df
               = inr ([_context_from_row (sample_row "102" "Toko B") 1 2;
                       _context_from_row (sample_row "103" "Toko C") 2 3], 2, 3))
    by (vm_compute; reflexivity).
  rewrite Hc in Hload. inversion Hload; subst.
  eexists. split; [exact Hc|]. split; reflexivity.
Defined.

Lemma with_retry_first_success_or_last_failure_witness :
  (exists tr, with_retry flaky 3 0%nat = (RetValue "ok", 2%nat, tr)
              /\ calls tr = 2%nat)
  /\ (exists tr, with_retry always_failing 3 0%nat
                 = (RetRaise (Exn "RuntimeError" "3"), 3%nat, tr)
                 /\ Z.of_nat (calls tr) = 3).
Proof.
  split.
  - assert (H : forall j, (j < 1)%nat -> exists e, nth_call flaky j 0%nat = Raised e).
    { intros j Hj. assert (j = 0%nat) as -> by lia. eexists. reflexivity. }
    destruct (with_retry_first_success_or_last_failure flaky 3 0%nat 1%nat H) as [Hok _].
    exact (Hok "ok" ltac:(lia) eq_refl).
  - assert (H : forall j, (j < 2)%nat -> exists e, nth_call always_failing j 0%nat = Raised e).
    { intros j Hj. eexists. reflexivity. }
    destruct (with_retry_first_success_or_last_failure always_failing 3 0%nat 2%nat H)
      as [_ Hfail].
    exact (Hfail (Exn "RuntimeError" "3") ltac:(lia) eq_refl).
Defined.

Lemma with_retry_no_budget_witness :
  0 <= 0 /\ with_retry flaky 0 7%nat = (RetNone, 7%nat, [])
  /\ with_retry flaky (-2) 7%nat = (RetNone, 7%nat, []).
Proof.
  split; [lia|]. split.
  - apply (with_retry_no_budget flaky 0 7%nat). lia.
  - apply (with_retry_no_budget flaky (-2) 7%nat). lia.
Defined.


Lemma dry_run_only_verifies_witness :
  let options := options_with false true true in
  let world := world_of (fun _ => ui_with open_page) in
  dry_run options = true
  /\ counts (run_rows options world [row1; row2] (initial_state false ∅)) = (2, 0, 0)
  /\ new_actions (initial_state false ∅)
       (run_rows options world [row1; row2] (initial_state false ∅)) = [].
Proof.
  intros options world.
  assert (H : dry_run options = true) by reflexivity.
  split; [exact H|].
  destruct (dry_run_only_verifies options world H) as (_ & _ & Htwo).
  split; [|vm_compute; reflexivity].
  apply (Htwo row1 row2 false ∅); vm_compute; reflexivity.
Defined.
